(** * Friend lookup queries of [my-friend-router.ts]

    A shallow embedding of the three tRPC procedures [getById], [getAll] and
    [getAll1] and of the three sub-queries they compose
    ([userTotalFriendCount], [userMutualFriendCount], [mutualFriendsCountAll]).

    Tables are lists of rows (bags); the Kysely builders are read as the SQL
    they emit and each SQL operator is a list function:
    - [innerJoin] / [leftJoin] are nested loops over the two operands,
    - [where_] is [filter],
    - [groupBy] yields one group per distinct key, with its member rows.
    SQL leaves the order of result rows open; the nested-loop order chosen
    here only matters where the source takes the first row. *)

From Stdlib Require Import String ZArith List Bool Lia.
Import ListNotations.
Open Scope Z_scope.

(** ** Relational operators *)

Section Relational.
Context {A B : Type}.

Definition where_ (p : A -> bool) (rows : list A) : list A := filter p rows.

Definition innerJoin (l : list A) (r : list B) (on : A -> B -> bool)
  : list (A * B) :=
  flat_map (fun a => map (pair a) (filter (on a) r)) l.

(** A left row without a partner is kept once, padded with NULL. *)
Definition leftJoin (l : list A) (r : list B) (on : A -> B -> bool)
  : list (A * option B) :=
  flat_map (fun a =>
              match filter (on a) r with
              | [] => [(a, None)]
              | ms => map (fun b => (a, Some b)) ms
              end) l.
End Relational.

Section Grouping.
Context {R K : Type}.
Variable eqb : K -> K -> bool.

(** The distinct values of a key column, first occurrences first. *)
Fixpoint distinct (ks : list K) : list K :=
  match ks with
  | [] => []
  | k :: rest => k :: filter (fun k' => negb (eqb k' k)) (distinct rest)
  end.

(** GROUP BY [key]: every key that occurs, with the rows that carry it. *)
Definition groupBy (key : R -> K) (rows : list R) : list (K * list R) :=
  map (fun k => (k, filter (fun r => eqb (key r) k) rows))
      (distinct (map key rows)).
End Grouping.

(** [countAll] and [count] over a non-null column are the group's size. *)
Definition countAll {R : Type} (g : list R) : Z := Z.of_nat (length g).

(** coalesce(x, d) *)
Definition coalesce {T : Type} (x : option T) (d : T) : T :=
  match x with Some v => v | None => d end.

Definition pair_eqb (p q : Z * Z) : bool :=
  (fst p =? fst q) && (snd p =? snd q).

(** ** Data model *)

(** [FriendshipStatusSchema] *)
Inductive FriendshipStatus : Type := requested | accepted | declined.

Definition status_eqb (s t : FriendshipStatus) : bool :=
  match s, t with
  | requested, requested | accepted, accepted | declined, declined => true
  | _, _ => false
  end.

(** Table [users]. *)
Record User : Type := mkUser {
  id : Z;
  fullName : string;
  phoneNumber : string
}.

(** Table [friendships]: one directed edge per row. *)
Record Friendship : Type := mkFriendship {
  userId : Z;
  friendUserId : Z;
  status : FriendshipStatus
}.

Record Database : Type := mkDatabase {
  users : list User;
  friendships : list Friendship
}.

Definition isAccepted (f : Friendship) : bool := status_eqb (status f) accepted.

(** Rows of the sub-query [userTotalFriendCount]. *)
Record TotalRow : Type := mkTotalRow {
  tfc_userId : Z;
  tfc_totalFriendCount : Z
}.

(** Rows of [userMutualFriendCount] and [mutualFriendsCountAll]. *)
Record MutualRow : Type := mkMutualRow {
  mfc_user : Z;
  mfc_friend : Z;
  mfc_mutualFriendCount : Z
}.

(** ** The aggregators *)

(** [userTotalFriendCount]: accepted edges grouped by their source. *)
Definition userTotalFriendCount (db : Database) : list TotalRow :=
  map (fun g => mkTotalRow (fst g) (countAll (snd g)))
      (groupBy Z.eqb userId (where_ isAccepted (friendships db))).

Definition mutualKey (p : Friendship * Friendship) : Z * Z :=
  (userId (fst p), userId (snd p)).

Definition mutualRow (g : (Z * Z) * list (Friendship * Friendship)) : MutualRow :=
  mkMutualRow (fst (fst g)) (snd (fst g)) (countAll (snd g)).

(** The joined and filtered rows of [userMutualFriendCount], before GROUP BY:
    [f1] leaves [friendUserId], [f2] leaves [userId], both reach the same
    far end. *)
Definition userMutualFriendCount_rows (db : Database) (userId_ friendUserId_ : Z)
  : list (Friendship * Friendship) :=
  where_ (fun p => isAccepted (fst p) && isAccepted (snd p)
                   && (userId (fst p) =? friendUserId_)
                   && (userId (snd p) =? userId_))
         (innerJoin (friendships db) (friendships db)
                    (fun f1 f2 => friendUserId f1 =? friendUserId f2)).

Definition userMutualFriendCount_groups (db : Database) (userId_ friendUserId_ : Z) :=
  groupBy pair_eqb mutualKey (userMutualFriendCount_rows db userId_ friendUserId_).

Definition userMutualFriendCount (db : Database) (userId_ friendUserId_ : Z)
  : list MutualRow :=
  map mutualRow (userMutualFriendCount_groups db userId_ friendUserId_).

(** The joined and filtered rows of [mutualFriendsCountAll]: the ON clause
    also asks for different sources and fixes [f2]'s source. *)
Definition mutualFriendsCountAll_rows (db : Database) (userId_ : Z)
  : list (Friendship * Friendship) :=
  where_ (fun p => isAccepted (fst p) && isAccepted (snd p))
         (innerJoin (friendships db) (friendships db)
                    (fun f1 f2 => (friendUserId f1 =? friendUserId f2)
                                  && negb (userId f1 =? userId f2)
                                  && (userId f2 =? userId_))).

Definition mutualFriendsCountAll_groups (db : Database) (userId_ : Z) :=
  groupBy pair_eqb mutualKey (mutualFriendsCountAll_rows db userId_).

Definition mutualFriendsCountAll (db : Database) (userId_ : Z) : list MutualRow :=
  map mutualRow (mutualFriendsCountAll_groups db userId_).

(** ** Schemas *)

(** Values as zod sees them: what a client may send, and what the driver
    hands back for a column (an integer, or [JsNull] for SQL NULL). *)
Inductive JsValue : Type :=
| JsInt (z : Z)
| JsNonInteger
| JsString (s : string)
| JsBool (b : bool)
| JsNull
| JsUndefined.

(** Modelled from the spec: [IdSchema] of [@/utils/server/base-schemas] is
    not part of the sources at hand; the spec gives an identity as a
    positive integer. *)
Definition IdSchema (v : JsValue) : option Z :=
  match v with
  | JsInt z => if 0 <? z then Some z else None
  | _ => None
  end.

(** The wording of the spec for a malformed identity: a non-positive
    integer, or a value of another type. *)
Definition malformedId (v : JsValue) : bool :=
  match v with
  | JsInt z => z <=? 0
  | _ => true
  end.

(** Modelled from the spec: [CountSchema] of [@/utils/server/base-schemas];
    the spec gives a count as an integer [>= 0] and says a null where a count
    is expected is not coerced to a default. *)
Definition CountSchema (v : JsValue) : option Z :=
  match v with
  | JsInt z => if 0 <=? z then Some z else None
  | _ => None
  end.

(** Modelled from the spec: [NonEmptyStringSchema] of
    [@/utils/server/base-schemas]; the spec gives names and phone numbers as
    non-empty text. *)
Definition NonEmptyStringSchema (v : JsValue) : option string :=
  match v with
  | JsString EmptyString => None
  | JsString s => Some s
  | _ => None
  end.

Definition sqlInt (c : option Z) : JsValue :=
  match c with Some z => JsInt z | None => JsNull end.

(** ** Result rows *)

(** A row of the composed query as the driver returns it. *)
Record QueryRow : Type := mkQueryRow {
  q_id : Z;
  q_fullName : string;
  q_phoneNumber : string;
  q_totalFriendCount : Z;
  q_mutualFriendCount : option Z
}.

(** The record handed to the caller once the output schema accepted it. *)
Record FriendRecord : Type := mkFriendRecord {
  rec_id : Z;
  rec_fullName : string;
  rec_phoneNumber : string;
  totalFriendCount : Z;
  mutualFriendCount : Z
}.

(** [z.object({ id, fullName, phoneNumber, totalFriendCount,
    mutualFriendCount }).parse] *)
Definition parseFriend (q : QueryRow) : option FriendRecord :=
  match IdSchema (JsInt (q_id q)),
        NonEmptyStringSchema (JsString (q_fullName q)),
        NonEmptyStringSchema (JsString (q_phoneNumber q)),
        CountSchema (JsInt (q_totalFriendCount q)),
        CountSchema (sqlInt (q_mutualFriendCount q)) with
  | Some i, Some n, Some p, Some t, Some m => Some (mkFriendRecord i n p t m)
  | _, _, _, _, _ => None
  end.

(** [z.array(...).parse]: one bad element rejects the whole array. *)
Fixpoint parseFriends (qs : list QueryRow) : option (list FriendRecord) :=
  match qs with
  | [] => Some []
  | q :: rest =>
      match parseFriend q, parseFriends rest with
      | Some r, Some rs => Some (r :: rs)
      | _, _ => None
      end
  end.

(** How a procedure call ends. [BAD_REQUEST] is the input schema's
    rejection, [NOT_FOUND] the error of [executeTakeFirstOrThrow],
    [INTERNAL_SERVER_ERROR] a throw of the output [parse]. *)
Inductive TRPCResult (T : Type) : Type :=
| Ok (value : T)
| BAD_REQUEST
| NOT_FOUND
| INTERNAL_SERVER_ERROR.
Arguments Ok {T} value.
Arguments BAD_REQUEST {T}.
Arguments NOT_FOUND {T}.
Arguments INTERNAL_SERVER_ERROR {T}.

(** ** [getById] *)

Definition getById_joined (db : Database) (sessionUserId friendUserId_ : Z)
  : list (User * Friendship * TotalRow * option MutualRow) :=
  leftJoin
    (innerJoin
       (innerJoin (users db) (friendships db)
                  (fun friends f => friendUserId f =? id friends))
       (userTotalFriendCount db)
       (fun l t => tfc_userId t =? id (fst l)))
    (userMutualFriendCount db sessionUserId friendUserId_)
    (fun l m => mfc_user m =? id (fst (fst l))).

Definition getById_where (sessionUserId friendUserId_ : Z)
  (r : User * Friendship * TotalRow * option MutualRow) : bool :=
  let f := snd (fst (fst r)) in
  (userId f =? sessionUserId) && (friendUserId f =? friendUserId_)
  && isAccepted f.

Definition getById_select (r : User * Friendship * TotalRow * option MutualRow)
  : QueryRow :=
  let friends := fst (fst (fst r)) in
  mkQueryRow (id friends) (fullName friends) (phoneNumber friends)
             (tfc_totalFriendCount (snd (fst r)))
             (Some (coalesce (option_map mfc_mutualFriendCount (snd r)) 0)).

Definition getById_query (db : Database) (sessionUserId friendUserId_ : Z)
  : list QueryRow :=
  map getById_select
      (where_ (getById_where sessionUserId friendUserId_)
              (getById_joined db sessionUserId friendUserId_)).

(** The resolver: first row or [NOT_FOUND], then the output schema. *)
Definition getById (db : Database) (sessionUserId friendUserId_ : Z)
  : TRPCResult FriendRecord :=
  match getById_query db sessionUserId friendUserId_ with
  | [] => NOT_FOUND
  | q :: _ =>
      match parseFriend q with
      | Some r => Ok r
      | None => INTERNAL_SERVER_ERROR
      end
  end.

(** The procedure as tRPC runs it: the input schema
    [z.object({ friendUserId: IdSchema })] is checked first and the resolver
    is only entered with a parsed input. [queries] counts the statements
    sent to the store. *)
Record GetByIdInput : Type := mkGetByIdInput { in_friendUserId : JsValue }.

Record Outcome (T : Type) : Type := mkOutcome {
  result : TRPCResult T;
  queries : nat
}.
Arguments mkOutcome {T} result queries.
Arguments result {T} o.
Arguments queries {T} o.

Definition getById_procedure (db : Database) (sessionUserId : Z)
  (input : GetByIdInput) : Outcome FriendRecord :=
  match IdSchema (in_friendUserId input) with
  | None => mkOutcome BAD_REQUEST 0%nat
  | Some fid => mkOutcome (getById db sessionUserId fid) 1%nat
  end.

(** ** [getAll] *)

Definition getAll_joined (db : Database) (sessionUserId : Z)
  : list (User * Friendship * TotalRow * option MutualRow) :=
  leftJoin
    (innerJoin
       (innerJoin (users db) (friendships db)
                  (fun friends f => friendUserId f =? id friends))
       (userTotalFriendCount db)
       (fun l t => tfc_userId t =? id (fst l)))
    (mutualFriendsCountAll db sessionUserId)
    (fun l m => mfc_user m =? id (fst (fst l))).

Definition getAll_where (sessionUserId : Z)
  (r : User * Friendship * TotalRow * option MutualRow) : bool :=
  let f := snd (fst (fst r)) in
  (userId f =? sessionUserId) && isAccepted f.

(** No coalesce here: the left join's NULL reaches the output as it is. *)
Definition getAll_select (r : User * Friendship * TotalRow * option MutualRow)
  : QueryRow :=
  let friends := fst (fst (fst r)) in
  mkQueryRow (id friends) (fullName friends) (phoneNumber friends)
             (tfc_totalFriendCount (snd (fst r)))
             (option_map mfc_mutualFriendCount (snd r)).

Definition getAll_query (db : Database) (sessionUserId : Z) : list QueryRow :=
  map getAll_select
      (where_ (getAll_where sessionUserId) (getAll_joined db sessionUserId)).

Definition getAll (db : Database) (sessionUserId : Z)
  : TRPCResult (list FriendRecord) :=
  match parseFriends (getAll_query db sessionUserId) with
  | Some rs => Ok rs
  | None => INTERNAL_SERVER_ERROR
  end.

(** ** [getAll1] *)

(** The two edge CTEs keep the columns [userId] and [friendUserId]. *)
Record EdgeRow : Type := mkEdgeRow { e_userId : Z; e_friendUserId : Z }.

Definition projectEdge (f : Friendship) : EdgeRow :=
  mkEdgeRow (userId f) (friendUserId f).

Definition userFriendships (db : Database) (sessionUserId : Z) : list EdgeRow :=
  map projectEdge
      (where_ (fun f => userId f =? sessionUserId)
              (where_ isAccepted (friendships db))).

Definition friendsFriendships (db : Database) (sessionUserId : Z) : list EdgeRow :=
  map projectEdge
      (where_ (fun f => negb (userId f =? sessionUserId))
              (where_ isAccepted (friendships db))).

Definition cteKey (p : EdgeRow * EdgeRow) : Z * Z :=
  (e_userId (fst p), e_userId (snd p)).

(** CTE [mutualFriendCount] of [getAll1]. *)
Definition getAll1_mutualFriendCount (db : Database) (sessionUserId : Z)
  : list MutualRow :=
  map (fun g => mkMutualRow (fst (fst g)) (snd (fst g)) (countAll (snd g)))
      (groupBy pair_eqb cteKey
               (innerJoin (userFriendships db sessionUserId)
                          (friendsFriendships db sessionUserId)
                          (fun f1 f2 => e_friendUserId f1 =? e_friendUserId f2))).

Definition getAll1_joined (db : Database) (sessionUserId : Z)
  : list (User * EdgeRow * option MutualRow) :=
  leftJoin
    (innerJoin (users db) (friendsFriendships db sessionUserId)
               (fun friends ff => e_userId ff =? id friends))
    (getAll1_mutualFriendCount db sessionUserId)
    (fun l m => mfc_friend m =? id (fst l)).

(** GROUP BY [friends.id]: the count is over the group, the other selected
    columns are bare and are read off one row of the group (the first). *)
Definition getAll1_select (g : Z * list (User * EdgeRow * option MutualRow))
  : list QueryRow :=
  match snd g with
  | [] => []
  | r :: _ =>
      let friends := fst (fst r) in
      [mkQueryRow (id friends) (fullName friends) (phoneNumber friends)
                  (countAll (snd g))
                  (option_map mfc_mutualFriendCount (snd r))]
  end.

Definition getAll1_query (db : Database) (sessionUserId : Z) : list QueryRow :=
  flat_map getAll1_select
           (groupBy Z.eqb (fun r => id (fst (fst r)))
                    (getAll1_joined db sessionUserId)).

Definition getAll1 (db : Database) (sessionUserId : Z)
  : TRPCResult (list FriendRecord) :=
  match parseFriends (getAll1_query db sessionUserId) with
  | Some rs => Ok rs
  | None => INTERNAL_SERVER_ERROR
  end.

(** ** Edge states *)

(** Is [(u, v, accepted)] an edge of the store? *)
Definition acceptedEdge (db : Database) (u v : Z) : bool :=
  existsb (fun f => isAccepted f && (userId f =? u) && (friendUserId f =? v))
          (friendships db).

(** The accepted edges that leave [u]. *)
Definition acceptedFrom (db : Database) (u : Z) : list Friendship :=
  filter (fun f => userId f =? u) (where_ isAccepted (friendships db)).

(** Accepted-symmetry invariant: an accepted edge has its accepted reverse. *)
Definition symmetricb (db : Database) : bool :=
  forallb (fun f => negb (isAccepted f)
                    || acceptedEdge db (friendUserId f) (userId f))
          (friendships db).

Definition validUser (u : User) : bool :=
  (0 <? id u)
  && negb (String.eqb (fullName u) EmptyString)
  && negb (String.eqb (phoneNumber u) EmptyString).

Definition hasUser (db : Database) (i : Z) : bool :=
  existsb (fun u => id u =? i) (users db).

(** Modelled from the spec: the declarations of the two tables are not
    among the sources. User rows carry a positive id and non-empty texts,
    and both ends of an edge are users. *)
Definition wellFormed (db : Database) : bool :=
  forallb validUser (users db)
  && forallb (fun f => hasUser db (userId f) && hasUser db (friendUserId f))
             (friendships db).

(** No value occurs twice in a key column. *)
Fixpoint uniqueb {K : Type} (eqb : K -> K -> bool) (ks : list K) : bool :=
  match ks with
  | [] => true
  | k :: rest => negb (existsb (eqb k) rest) && uniqueb eqb rest
  end.

Definition edgeKey (f : Friendship) : Z * Z := (userId f, friendUserId f).

(** Modelled from the spec: the declarations of the two tables are not
    among the sources; the spec gives user ids as unique and one current
    edge per ordered pair. *)
Definition primaryKeys (db : Database) : bool :=
  uniqueb Z.eqb (map id (users db))
  && uniqueb pair_eqb (map edgeKey (friendships db)).

(** The store with its requested and declined edges removed. *)
Definition acceptedOnly (db : Database) : Database :=
  mkDatabase (users db) (filter isAccepted (friendships db)).

(** ** Example stores *)

Definition alice : User := mkUser 1 "Alice" "0900000001".
Definition bob : User := mkUser 2 "Bob" "0900000002".
Definition carol : User := mkUser 3 "Carol" "0900000003".
Definition dave : User := mkUser 4 "Dave" "0900000004".
Definition erin : User := mkUser 5 "Erin" "0900000005".

Definition friends_ (a b : Z) : list Friendship :=
  [mkFriendship a b accepted; mkFriendship b a accepted].

(** Two users who are friends, and nobody else. *)
Definition db_pair : Database :=
  mkDatabase [alice; bob] (friends_ 1 2).

(** Alice accepted by Bob, Carol, Dave and Erin, who do not know each other
    (the star of the test suite's question 4). *)
Definition db_star : Database :=
  mkDatabase [alice; bob; carol; dave; erin]
             (friends_ 1 2 ++ friends_ 1 3 ++ friends_ 1 4 ++ friends_ 1 5).

(** The web of the test suite's question 5, scenario 1:
    Alice - Bob, Carol, Dave, Erin; Bob - Carol, Dave. *)
Definition db_web : Database :=
  mkDatabase [alice; bob; carol; dave; erin]
             (friends_ 1 2 ++ friends_ 1 3 ++ friends_ 1 4 ++ friends_ 1 5
              ++ friends_ 2 3 ++ friends_ 2 4).

(** Alice - Bob, Carol; Bob - Carol, Dave: Dave is a friend of a friend. *)
Definition db_triangle_tail : Database :=
  mkDatabase [alice; bob; carol; dave]
             (friends_ 1 2 ++ friends_ 1 3 ++ friends_ 2 3 ++ friends_ 2 4).

(** Only one direction of the pair is stored as accepted. *)
Definition db_oneway : Database :=
  mkDatabase [alice; bob] [mkFriendship 1 2 accepted].

(** Alice's edge is accepted, Bob's own edge is still a request. *)
Definition db_pending : Database :=
  mkDatabase [alice; bob]
             [mkFriendship 1 2 accepted; mkFriendship 2 1 requested].

(** Alice and Bob are friends and Alice also has an accepted edge to
    herself. *)
Definition db_self : Database :=
  mkDatabase [alice; bob] (mkFriendship 1 1 accepted :: friends_ 1 2).

(** * Properties *)

(** ** Joins and groups *)

Section RelationalFacts.
Context {A B : Type}.

Lemma in_innerJoin (l : list A) (r : list B) (on : A -> B -> bool) a b :
  In (a, b) (innerJoin l r on) <-> In a l /\ In b r /\ on a b = true.
Proof.
  unfold innerJoin. rewrite in_flat_map. split.
  - intros (a' & Ha & Hin). apply in_map_iff in Hin.
    destruct Hin as (b' & Heq & Hb). inversion Heq; subst.
    apply filter_In in Hb. tauto.
  - intros (Ha & Hb & Hon). exists a. split; [assumption|].
    apply in_map. apply filter_In. tauto.
Qed.

Lemma in_leftJoin (l : list A) (r : list B) (on : A -> B -> bool) a ob :
  In (a, ob) (leftJoin l r on) <->
  In a l /\ match ob with
            | None => filter (on a) r = []
            | Some b => In b r /\ on a b = true
            end.
Proof.
  unfold leftJoin. rewrite in_flat_map. split.
  - intros (a' & Ha & Hin).
    destruct (filter (on a') r) as [|m ms] eqn:E.
    + destruct Hin as [Heq|[]]. inversion Heq; subst. tauto.
    + apply in_map_iff in Hin. destruct Hin as (b & Heq & Hb).
      inversion Heq; subst. rewrite <- E in Hb.
      apply filter_In in Hb. tauto.
  - intros (Ha & Hob). exists a. split; [assumption|].
    destruct ob as [b|].
    + assert (Hb : In b (filter (on a) r)) by (apply filter_In; tauto).
      destruct (filter (on a) r) as [|m ms]; [destruct Hb|].
      apply (in_map (fun b => (a, Some b))). exact Hb.
    + rewrite Hob. left. reflexivity.
Qed.

Lemma filter_none (p : A -> bool) (l : list A) :
  (forall x, In x l -> p x = false) -> filter p l = [].
Proof.
  induction l as [|x l IH]; intros H; simpl; [reflexivity|].
  rewrite (H x (or_introl eq_refl)). apply IH.
  intros y Hy. apply H. right. exact Hy.
Qed.

Lemma filter_all (p : A -> bool) (l : list A) :
  (forall x, In x l -> p x = true) -> filter p l = l.
Proof.
  induction l as [|x l IH]; intros H; simpl; [reflexivity|].
  rewrite (H x (or_introl eq_refl)). f_equal. apply IH.
  intros y Hy. apply H. right. exact Hy.
Qed.

Lemma not_nil_In (l : list A) : l <> [] <-> exists x, In x l.
Proof.
  destruct l as [|x l]; split.
  - intros H. contradiction H. reflexivity.
  - intros (x & []).
  - intros _. exists x. left. reflexivity.
  - intros _. discriminate.
Qed.
End RelationalFacts.

Section GroupingFacts.
Context {R K : Type}.
Variable eqb : K -> K -> bool.
Hypothesis eqb_eq : forall x y, eqb x y = true <-> x = y.

Lemma in_distinct (ks : list K) k : In k (distinct eqb ks) <-> In k ks.
Proof.
  induction ks as [|x ks IH]; simpl; [tauto|].
  rewrite filter_In, IH. split.
  - tauto.
  - intros [Hx|Hk]; [tauto|].
    destruct (eqb k x) eqn:E.
    + left. symmetry. apply eqb_eq. exact E.
    + right. split; [assumption|reflexivity].
Qed.

Lemma NoDup_distinct (ks : list K) : NoDup (distinct eqb ks).
Proof.
  induction ks as [|x ks IH]; simpl; constructor.
  - rewrite filter_In. intros (_ & H).
    assert (E : eqb x x = true) by (apply eqb_eq; reflexivity).
    rewrite E in H. discriminate.
  - apply NoDup_filter. exact IH.
Qed.

Lemma in_groupBy (key : R -> K) (rows : list R) k g :
  In (k, g) (groupBy eqb key rows) <->
  (exists r, In r rows /\ key r = k)
  /\ g = filter (fun r => eqb (key r) k) rows.
Proof.
  unfold groupBy. rewrite in_map_iff. split.
  - intros (k' & Heq & Hin). inversion Heq; subst.
    apply -> in_distinct in Hin. apply in_map_iff in Hin.
    destruct Hin as (r & Hr & Hin). split; [|reflexivity].
    exists r. tauto.
  - intros ((r & Hr & Hk) & Hg). exists k. subst g. split; [reflexivity|].
    apply in_distinct. apply in_map_iff. exists r. tauto.
Qed.

Lemma NoDup_groupBy_keys (key : R -> K) (rows : list R) :
  NoDup (map fst (groupBy eqb key rows)).
Proof.
  unfold groupBy. rewrite map_map. simpl. rewrite map_id.
  apply NoDup_distinct.
Qed.

(** Rows that all carry one key form one group, or none when there is no
    row. *)
Lemma groupBy_one_key (key : R -> K) (rows : list R) k :
  (forall r, In r rows -> key r = k) ->
  groupBy eqb key rows = match rows with [] => [] | _ => [(k, rows)] end.
Proof.
  intros Hall. destruct rows as [|r0 rows]; [reflexivity|].
  assert (Hd : distinct eqb (map key (r0 :: rows)) = [k]).
  { cbn [map distinct]. rewrite (Hall r0 (or_introl eq_refl)).
    rewrite filter_none; [reflexivity|].
    intros x Hx. apply -> in_distinct in Hx. apply in_map_iff in Hx.
    destruct Hx as (r & Hr & Hin). subst x.
    rewrite (Hall r (or_intror Hin)).
    assert (E : eqb k k = true) by (apply eqb_eq; reflexivity).
    rewrite E. reflexivity. }
  unfold groupBy. rewrite Hd. cbn [map]. f_equal. f_equal.
  apply filter_all. intros r Hr. apply eqb_eq. apply Hall. exact Hr.
Qed.
End GroupingFacts.

Lemma pair_eqb_eq (p q : Z * Z) : pair_eqb p q = true <-> p = q.
Proof.
  unfold pair_eqb. destruct p as [a b], q as [c d]. simpl.
  rewrite andb_true_iff, !Z.eqb_eq. split.
  - intros [-> ->]. reflexivity.
  - intros H. inversion H. tauto.
Qed.

Lemma isAccepted_spec (f : Friendship) :
  isAccepted f = true <-> status f = accepted.
Proof.
  unfold isAccepted. destruct (status f); simpl; split;
    intros H; try reflexivity; discriminate H.
Qed.

(** ** The aggregators *)

Lemma acceptedFrom_In (db : Database) (u : Z) (f : Friendship) :
  In f (acceptedFrom db u) <->
  In f (friendships db) /\ status f = accepted /\ userId f = u.
Proof.
  unfold acceptedFrom, where_. rewrite !filter_In, isAccepted_spec, Z.eqb_eq.
  tauto.
Qed.

Lemma acceptedEdge_true (db : Database) (u v : Z) :
  acceptedEdge db u v = true <->
  exists f, In f (friendships db) /\ status f = accepted
            /\ userId f = u /\ friendUserId f = v.
Proof.
  unfold acceptedEdge. rewrite existsb_exists. split.
  - intros (f & Hin & H). apply andb_true_iff in H. destruct H as [H Hv].
    apply andb_true_iff in H. destruct H as [Ha Hu].
    exists f. rewrite <- isAccepted_spec, <- !Z.eqb_eq. tauto.
  - intros (f & Hin & Ha & Hu & Hv). exists f. split; [assumption|].
    apply isAccepted_spec in Ha. apply Z.eqb_eq in Hu, Hv.
    rewrite Ha, Hu, Hv. reflexivity.
Qed.

(** The total-count aggregate has a row for [u] exactly when an accepted
    edge leaves [u], and the row holds the number of these edges. *)
Lemma in_userTotalFriendCount (db : Database) (t : TotalRow) :
  In t (userTotalFriendCount db) <->
  acceptedFrom db (tfc_userId t) <> []
  /\ tfc_totalFriendCount t = countAll (acceptedFrom db (tfc_userId t)).
Proof.
  unfold userTotalFriendCount. rewrite in_map_iff. split.
  - intros ([k g] & Heq & Hin). subst t. simpl.
    apply (in_groupBy Z.eqb Z.eqb_eq) in Hin.
    destruct Hin as ((r & Hr & Hk) & Hg). subst g. split; [|reflexivity].
    apply not_nil_In. exists r. unfold acceptedFrom.
    apply filter_In. split; [assumption|]. apply Z.eqb_eq. exact Hk.
  - intros (Hne & Hc). destruct t as [k c]. simpl in *.
    exists (k, acceptedFrom db k). simpl. split; [congruence|].
    apply (in_groupBy Z.eqb Z.eqb_eq). split; [|reflexivity].
    apply not_nil_In in Hne. destruct Hne as (r & Hr).
    unfold acceptedFrom in Hr. apply filter_In in Hr.
    exists r. rewrite <- Z.eqb_eq. exact Hr.
Qed.

Lemma in_userMutualFriendCount_rows (db : Database) (u v : Z) f1 f2 :
  In (f1, f2) (userMutualFriendCount_rows db u v) <->
  In f1 (friendships db) /\ In f2 (friendships db)
  /\ friendUserId f1 = friendUserId f2
  /\ status f1 = accepted /\ status f2 = accepted
  /\ userId f1 = v /\ userId f2 = u.
Proof.
  unfold userMutualFriendCount_rows, where_.
  rewrite filter_In, in_innerJoin. simpl.
  rewrite !andb_true_iff, !isAccepted_spec, !Z.eqb_eq. tauto.
Qed.

Lemma in_mutualFriendsCountAll_rows (db : Database) (u : Z) f1 f2 :
  In (f1, f2) (mutualFriendsCountAll_rows db u) <->
  In f1 (friendships db) /\ In f2 (friendships db)
  /\ friendUserId f1 = friendUserId f2
  /\ userId f1 <> userId f2 /\ userId f2 = u
  /\ status f1 = accepted /\ status f2 = accepted.
Proof.
  unfold mutualFriendsCountAll_rows, where_.
  rewrite filter_In, in_innerJoin. simpl.
  rewrite !andb_true_iff, negb_true_iff, !isAccepted_spec, !Z.eqb_eq,
    Z.eqb_neq. tauto.
Qed.

(** For a fixed pair the single-pair aggregate is one row holding the number
    of joined rows, or no row at all when nothing joins. *)
Lemma userMutualFriendCount_shape (db : Database) (u v : Z) :
  userMutualFriendCount db u v =
  match userMutualFriendCount_rows db u v with
  | [] => []
  | rows => [mkMutualRow v u (countAll rows)]
  end.
Proof.
  unfold userMutualFriendCount, userMutualFriendCount_groups.
  rewrite (groupBy_one_key pair_eqb pair_eqb_eq mutualKey _ (v, u)).
  - destruct (userMutualFriendCount_rows db u v); reflexivity.
  - intros [f1 f2] Hin. apply in_userMutualFriendCount_rows in Hin.
    unfold mutualKey. simpl. f_equal; tauto.
Qed.

(** Swapping the two copies of the edge table in a join does not change the
    number of joined rows. *)
Lemma length_innerJoin_swap {A B : Type} (l : list A) (r : list B)
  (on : A -> B -> bool) :
  length (innerJoin l r on) = length (innerJoin r l (fun b a => on a b)).
Proof.
  unfold innerJoin.
  induction l as [|a l IH]; simpl.
  - induction r as [|b r IHr]; simpl; [reflexivity|exact IHr].
  - rewrite length_app, length_map, IH. clear IH.
    induction r as [|b r IHr]; simpl; [reflexivity|].
    destruct (on a b); simpl; rewrite !length_app, !length_map; lia.
Qed.

Lemma filter_innerJoin {A B : Type} (l : list A) (r : list B)
  (on : A -> B -> bool) (p : A * B -> bool) :
  filter p (innerJoin l r on) = innerJoin l r (fun a b => on a b && p (a, b)).
Proof.
  unfold innerJoin. induction l as [|a l IH]; simpl; [reflexivity|].
  rewrite filter_app, IH. f_equal. clear IH.
  induction r as [|b r IHr]; simpl; [reflexivity|].
  destruct (on a b); simpl; [|exact IHr].
  destruct (p (a, b)); simpl; rewrite IHr; reflexivity.
Qed.

Lemma innerJoin_ext {A B : Type} (l : list A) (r : list B)
  (on on' : A -> B -> bool) :
  (forall a b, In a l -> In b r -> on a b = on' a b) ->
  innerJoin l r on = innerJoin l r on'.
Proof.
  intros H. unfold innerJoin. rewrite !flat_map_concat_map. f_equal.
  apply map_ext_in. intros a Ha. f_equal.
  apply filter_ext_in. intros b Hb. apply H; assumption.
Qed.

Lemma userMutualFriendCount_rows_swap (db : Database) (u v : Z) :
  length (userMutualFriendCount_rows db u v)
  = length (userMutualFriendCount_rows db v u).
Proof.
  unfold userMutualFriendCount_rows, where_.
  rewrite !filter_innerJoin, length_innerJoin_swap.
  f_equal. apply innerJoin_ext. intros a b _ _. simpl.
  rewrite (Z.eqb_sym (friendUserId b) (friendUserId a)).
  destruct (friendUserId a =? friendUserId b), (isAccepted a), (isAccepted b),
    (userId a =? u), (userId b =? v); reflexivity.
Qed.

(** ** [getById] *)

Section GetById.
Variable db : Database.
Variables sessionUserId target : Z.

(** What a row of the composed query holds. *)
Lemma getById_query_row (q : QueryRow) :
  In q (getById_query db sessionUserId target) ->
  q_id q = target
  /\ (exists u, In u (users db) /\ id u = target
                /\ q_fullName q = fullName u
                /\ q_phoneNumber q = phoneNumber u)
  /\ q_totalFriendCount q = countAll (acceptedFrom db target)
  /\ q_mutualFriendCount q
     = Some (countAll (userMutualFriendCount_rows db sessionUserId target))
  /\ acceptedEdge db sessionUserId target = true
  /\ acceptedFrom db target <> [].
Proof.
  unfold getById_query, where_. rewrite in_map_iff.
  intros ([[[u f] t] om] & Hq & Hin). subst q.
  apply filter_In in Hin. destruct Hin as [Hin Hw].
  unfold getById_joined in Hin. apply in_leftJoin in Hin.
  destruct Hin as [Hin Hom]. apply in_innerJoin in Hin.
  destruct Hin as (Hin & Ht & Hton). apply in_innerJoin in Hin.
  destruct Hin as (Hu & Hf & Hfon). simpl in Hton, Hfon, Hom.
  unfold getById_where in Hw. simpl in Hw.
  apply andb_true_iff in Hw. destruct Hw as [Hw Hacc].
  apply andb_true_iff in Hw. destruct Hw as [Hfu Hft].
  apply Z.eqb_eq in Hton, Hfon, Hfu, Hft. apply isAccepted_spec in Hacc.
  assert (Hid : id u = target) by congruence.
  apply in_userTotalFriendCount in Ht. rewrite Hton, Hid in Ht.
  destruct Ht as [Hne Hcount].
  unfold getById_select. simpl.
  repeat split; try assumption.
  - exists u. repeat split; assumption.
  - f_equal. rewrite userMutualFriendCount_shape in Hom.
    destruct (userMutualFriendCount_rows db sessionUserId target) as [|p rows].
    + destruct om as [m|]; [destruct Hom as [[] _]|reflexivity].
    + destruct om as [m|].
      * destruct Hom as [[Hm|[]] _]. subst m. reflexivity.
      * simpl in Hom. rewrite Hid, Z.eqb_refl in Hom. discriminate Hom.
  - apply acceptedEdge_true. exists f. tauto.
Qed.

(** When the query has a row. *)
Lemma getById_query_nonempty :
  hasUser db target = true ->
  acceptedEdge db sessionUserId target = true ->
  acceptedFrom db target <> [] ->
  getById_query db sessionUserId target <> [].
Proof.
  intros Hu He Hne.
  unfold hasUser in Hu. apply existsb_exists in Hu.
  destruct Hu as (u & Hu & Hid). apply Z.eqb_eq in Hid.
  apply acceptedEdge_true in He. destruct He as (f & Hf & Ha & Hfu & Hft).
  set (t := mkTotalRow target (countAll (acceptedFrom db target))).
  assert (Hl : In (u, f, t)
                  (innerJoin
                     (innerJoin (users db) (friendships db)
                        (fun friends f => friendUserId f =? id friends))
                     (userTotalFriendCount db)
                     (fun l t => tfc_userId t =? id (fst l)))).
  { apply in_innerJoin. repeat split.
    - apply in_innerJoin. repeat split; try assumption.
      apply Z.eqb_eq. congruence.
    - apply in_userTotalFriendCount. simpl. split; [assumption|reflexivity].
    - simpl. apply Z.eqb_eq. congruence. }
  assert (Hex : exists om, In (u, f, t, om)
                             (getById_joined db sessionUserId target)).
  { unfold getById_joined.
    destruct (filter (fun m => mfc_user m =? id u)
                     (userMutualFriendCount db sessionUserId target))
      as [|m ms] eqn:E.
    - exists None. apply in_leftJoin. split; [exact Hl|exact E].
    - exists (Some m). apply in_leftJoin. split; [exact Hl|].
      assert (Hm : In m (m :: ms)) by (left; reflexivity).
      rewrite <- E in Hm. apply filter_In in Hm. exact Hm. }
  destruct Hex as (om & Hin).
  apply not_nil_In. exists (getById_select (u, f, t, om)).
  unfold getById_query, where_. apply in_map. apply filter_In.
  split; [exact Hin|]. unfold getById_where. simpl.
  apply isAccepted_spec in Ha. apply Z.eqb_eq in Hfu, Hft.
  rewrite Hfu, Hft, Ha. reflexivity.
Qed.

Lemma getById_NOT_FOUND_query :
  getById db sessionUserId target = NOT_FOUND <->
  getById_query db sessionUserId target = [].
Proof.
  unfold getById.
  destruct (getById_query db sessionUserId target) as [|q qs].
  - tauto.
  - destruct (parseFriend q); split; discriminate.
Qed.

Lemma getById_Ok_row (r : FriendRecord) :
  getById db sessionUserId target = Ok r ->
  exists q, In q (getById_query db sessionUserId target)
            /\ parseFriend q = Some r.
Proof.
  unfold getById.
  destruct (getById_query db sessionUserId target) as [|q qs];
    [discriminate|].
  destruct (parseFriend q) as [r'|] eqn:E; [|discriminate].
  intros H. inversion H; subst. exists q. split; [left; reflexivity|exact E].
Qed.
End GetById.

Lemma parseFriend_Some (q : QueryRow) (r : FriendRecord) :
  parseFriend q = Some r ->
  rec_id r = q_id q /\ rec_fullName r = q_fullName q
  /\ rec_phoneNumber r = q_phoneNumber q
  /\ totalFriendCount r = q_totalFriendCount q
  /\ q_mutualFriendCount q = Some (mutualFriendCount r)
  /\ 0 <= totalFriendCount r /\ 0 <= mutualFriendCount r.
Proof.
  unfold parseFriend, IdSchema, NonEmptyStringSchema, CountSchema, sqlInt.
  destruct q as [i n p t m]. simpl.
  destruct (0 <? i); [|discriminate].
  destruct n as [|c n]; [discriminate|].
  destruct p as [|c' p]; [discriminate|].
  destruct (0 <=? t) eqn:Et; [|discriminate].
  destruct m as [m|]; [|discriminate].
  destruct (0 <=? m) eqn:Em; [|discriminate].
  intros H. inversion H; subst. simpl.
  apply Z.leb_le in Et, Em. repeat split; assumption.
Qed.

Lemma countAll_nonneg {R : Type} (g : list R) : 0 <= countAll g.
Proof. unfold countAll. lia. Qed.

Lemma parseFriend_valid (u : User) (t m : Z) :
  validUser u = true -> 0 <= t -> 0 <= m ->
  parseFriend (mkQueryRow (id u) (fullName u) (phoneNumber u) t (Some m))
  = Some (mkFriendRecord (id u) (fullName u) (phoneNumber u) t m).
Proof.
  unfold validUser, parseFriend, IdSchema, NonEmptyStringSchema, CountSchema.
  intros Hv Ht Hm. simpl.
  apply andb_true_iff in Hv. destruct Hv as [Hv Hp].
  apply andb_true_iff in Hv. destruct Hv as [Hi Hn].
  rewrite Hi. apply Z.leb_le in Ht, Hm. rewrite Ht, Hm.
  destruct (fullName u); [discriminate Hn|].
  destruct (phoneNumber u); [discriminate Hp|]. reflexivity.
Qed.

Lemma symmetricb_reverse (db : Database) (u v : Z) :
  symmetricb db = true ->
  acceptedEdge db u v = true -> acceptedEdge db v u = true.
Proof.
  unfold symmetricb. rewrite forallb_forall. intros Hs He.
  apply acceptedEdge_true in He. destruct He as (f & Hf & Ha & Hu & Hv).
  specialize (Hs f Hf). apply isAccepted_spec in Ha.
  rewrite Ha, Hu, Hv in Hs. exact Hs.
Qed.

Lemma acceptedEdge_acceptedFrom (db : Database) (u v : Z) :
  acceptedEdge db u v = true -> acceptedFrom db u <> [].
Proof.
  intros He. apply acceptedEdge_true in He.
  destruct He as (f & Hf & Ha & Hu & _).
  apply not_nil_In. exists f. apply acceptedFrom_In. tauto.
Qed.

Lemma wellFormed_target (db : Database) (u v : Z) :
  wellFormed db = true ->
  acceptedEdge db u v = true -> hasUser db v = true.
Proof.
  unfold wellFormed. intros Hw He.
  apply andb_true_iff in Hw. destruct Hw as [_ Hw].
  rewrite forallb_forall in Hw.
  apply acceptedEdge_true in He. destruct He as (f & Hf & _ & _ & Hv).
  specialize (Hw f Hf). apply andb_true_iff in Hw. rewrite <- Hv. tauto.
Qed.

Lemma wellFormed_validUser (db : Database) (u : User) :
  wellFormed db = true -> In u (users db) -> validUser u = true.
Proof.
  unfold wellFormed. intros Hw Hu.
  apply andb_true_iff in Hw. destruct Hw as [Hw _].
  rewrite forallb_forall in Hw. apply Hw. exact Hu.
Qed.

Lemma countAll_zero {R : Type} (g : list R) : countAll g = 0 <-> g = [].
Proof.
  unfold countAll. destruct g; simpl; split; intros H;
    try reflexivity; try discriminate H; lia.
Qed.

(** With a valid target that has an accepted edge of its own, the lookup of
    an accepted pair answers with the target's record and both counts. *)
Lemma getById_returns (db : Database) (s t : Z) :
  wellFormed db = true ->
  acceptedEdge db s t = true ->
  acceptedFrom db t <> [] ->
  exists r, getById db s t = Ok r
            /\ rec_id r = t
            /\ totalFriendCount r = countAll (acceptedFrom db t)
            /\ mutualFriendCount r
               = countAll (userMutualFriendCount_rows db s t).
Proof.
  intros Hw He Hne.
  pose proof (getById_query_nonempty db s t
                (wellFormed_target db s t Hw He) He Hne) as Hq.
  unfold getById.
  destruct (getById_query db s t) as [|q qs] eqn:E; [contradiction Hq; reflexivity|].
  assert (Hin : In q (getById_query db s t)) by (rewrite E; left; reflexivity).
  apply getById_query_row in Hin.
  destruct Hin as (Hid & (u & Hu & Huid & Hn & Hp) & Ht & Hm & _ & _).
  destruct q as [qi qn qp qt qm]. simpl in *. subst.
  rewrite (parseFriend_valid u _ _ (wellFormed_validUser db u Hw Hu)
             (countAll_nonneg _) (countAll_nonneg _)).
  eexists. split; [reflexivity|]. simpl. repeat split; reflexivity.
Qed.

Lemma getById_Ok_fields (db : Database) (s t : Z) (r : FriendRecord) :
  getById db s t = Ok r ->
  rec_id r = t
  /\ totalFriendCount r = countAll (acceptedFrom db t)
  /\ mutualFriendCount r = countAll (userMutualFriendCount_rows db s t)
  /\ acceptedEdge db s t = true
  /\ acceptedFrom db t <> [].
Proof.
  intros H. apply getById_Ok_row in H. destruct H as (q & Hin & Hp).
  apply getById_query_row in Hin.
  destruct Hin as (Hid & _ & Ht & Hm & He & Hne).
  apply parseFriend_Some in Hp.
  destruct Hp as (Pi & _ & _ & Pt & Pm & _).
  repeat split; try assumption; try congruence.
Qed.

(** The zero default of [getById]: a record returned for a pair whose
    self-join is empty has [mutualFriendCount = 0]. *)
Lemma getById_zero_default (db : Database) (s t : Z) (r : FriendRecord) :
  getById db s t = Ok r ->
  userMutualFriendCount_rows db s t = [] ->
  mutualFriendCount r = 0.
Proof.
  intros Hr Hrows. apply getById_Ok_fields in Hr.
  destruct Hr as (_ & _ & Hm & _). rewrite Hm, Hrows. reflexivity.
Qed.

(** ** [getAll] *)

(** For a friend other than the requester, the batch aggregate groups the
    very rows that the single-pair aggregate joins. *)
Lemma mutualFriendsCountAll_group (db : Database) (s b : Z) :
  b <> s ->
  filter (fun p => pair_eqb (mutualKey p) (b, s))
         (mutualFriendsCountAll_rows db s)
  = userMutualFriendCount_rows db s b.
Proof.
  intros Hbs. unfold mutualFriendsCountAll_rows, userMutualFriendCount_rows,
    where_.
  rewrite !filter_innerJoin. apply innerJoin_ext. intros f1 f2 _ _.
  unfold pair_eqb, mutualKey. simpl.
  destruct (Z.eqb_spec (userId f1) b) as [E1|E1],
           (Z.eqb_spec (userId f2) s) as [E2|E2];
    rewrite ?andb_false_r; try reflexivity.
  assert (En : (userId f1 =? userId f2) = false)
    by (apply Z.eqb_neq; congruence).
  rewrite En. simpl.
  destruct (friendUserId f1 =? friendUserId f2), (isAccepted f1),
    (isAccepted f2); reflexivity.
Qed.

Lemma in_mutualFriendsCountAll (db : Database) (s : Z) (m : MutualRow) :
  In m (mutualFriendsCountAll db s) <->
  mfc_friend m = s /\ mfc_user m <> s
  /\ userMutualFriendCount_rows db s (mfc_user m) <> []
  /\ mfc_mutualFriendCount m
     = countAll (userMutualFriendCount_rows db s (mfc_user m)).
Proof.
  unfold mutualFriendsCountAll, mutualFriendsCountAll_groups.
  rewrite in_map_iff. split.
  - intros ([[b s'] g] & Hm & Hg). subst m. unfold mutualRow. simpl.
    apply (in_groupBy pair_eqb pair_eqb_eq) in Hg.
    destruct Hg as (([f1 f2] & Hr & Hk) & Hg).
    pose proof Hr as Hr'. apply in_mutualFriendsCountAll_rows in Hr'.
    destruct Hr' as (_ & _ & _ & Hne & Hs & _ & _).
    unfold mutualKey in Hk. simpl in Hk.
    assert (Hb : userId f1 = b) by congruence.
    assert (Hs' : s' = s) by congruence.
    clear Hk. subst s'.
    assert (Hbs : b <> s) by congruence.
    rewrite mutualFriendsCountAll_group in Hg by exact Hbs. subst g.
    repeat split; try assumption.
    rewrite <- (mutualFriendsCountAll_group db s b Hbs).
    apply not_nil_In. exists (f1, f2). apply filter_In. split; [exact Hr|].
    apply pair_eqb_eq. unfold mutualKey. simpl. congruence.
  - intros (Hf & Hu & Hne & Hc). destruct m as [b s' c]. simpl in *. subst.
    exists ((b, s), userMutualFriendCount_rows db s b). split; [reflexivity|].
    apply (in_groupBy pair_eqb pair_eqb_eq).
    rewrite mutualFriendsCountAll_group by exact Hu. split; [|reflexivity].
    apply not_nil_In in Hne. destruct Hne as (p & Hp).
    rewrite <- (mutualFriendsCountAll_group db s b Hu) in Hp.
    apply filter_In in Hp. destruct Hp as [Hp Hk]. apply pair_eqb_eq in Hk.
    exists p. tauto.
Qed.

(** What a row of the composed query of [getAll] holds: a friend of the
    requester, the friend's exact total, and as mutual count the number of
    rows the single-pair aggregate joins, or NULL when there is none. *)
Lemma getAll_query_row (db : Database) (s : Z) (q : QueryRow) :
  In q (getAll_query db s) ->
  acceptedEdge db s (q_id q) = true
  /\ (exists u, In u (users db) /\ id u = q_id q
                /\ q_fullName q = fullName u
                /\ q_phoneNumber q = phoneNumber u)
  /\ acceptedFrom db (q_id q) <> []
  /\ q_totalFriendCount q = countAll (acceptedFrom db (q_id q))
  /\ (q_id q = s -> q_mutualFriendCount q = None)
  /\ (q_id q <> s ->
      q_mutualFriendCount q
      = match userMutualFriendCount_rows db s (q_id q) with
        | [] => None
        | rows => Some (countAll rows)
        end).
Proof.
  unfold getAll_query, where_. rewrite in_map_iff.
  intros ([[[u f] t] om] & Hq & Hin). subst q.
  apply filter_In in Hin. destruct Hin as [Hin Hw].
  unfold getAll_joined in Hin. apply in_leftJoin in Hin.
  destruct Hin as [Hin Hom]. apply in_innerJoin in Hin.
  destruct Hin as (Hin & Ht & Hton). apply in_innerJoin in Hin.
  destruct Hin as (Hu & Hf & Hfon). simpl in Hton, Hfon, Hom.
  unfold getAll_where in Hw. simpl in Hw.
  apply andb_true_iff in Hw. destruct Hw as [Hfu Hacc].
  apply Z.eqb_eq in Hton, Hfon, Hfu. apply isAccepted_spec in Hacc.
  apply in_userTotalFriendCount in Ht. rewrite Hton in Ht.
  destruct Ht as [Hne Hcount].
  unfold getAll_select. simpl.
  assert (Hmut : match om with
                 | Some m => id u <> s
                             /\ userMutualFriendCount_rows db s (id u) <> []
                             /\ mfc_mutualFriendCount m
                                = countAll (userMutualFriendCount_rows db s (id u))
                 | None => id u <> s ->
                           userMutualFriendCount_rows db s (id u) = []
                 end).
  { destruct om as [m|].
    - destruct Hom as [Hm Hmu]. apply Z.eqb_eq in Hmu.
      apply in_mutualFriendsCountAll in Hm. rewrite Hmu in Hm. tauto.
    - intros Hus.
      destruct (userMutualFriendCount_rows db s (id u)) as [|p ps] eqn:E;
        [reflexivity|].
      assert (Hm : In (mkMutualRow (id u) s
                         (countAll (userMutualFriendCount_rows db s (id u))))
                      (filter (fun m => mfc_user m =? id u)
                              (mutualFriendsCountAll db s))).
      { apply filter_In. split; [|simpl; apply Z.eqb_refl].
        apply in_mutualFriendsCountAll. simpl. rewrite E.
        repeat split; try assumption. discriminate. }
      rewrite Hom in Hm. destruct Hm. }
  repeat split; try assumption.
  - apply acceptedEdge_true. exists f. tauto.
  - exists u. repeat split; assumption.
  - intros Hus. destruct om as [m|]; [|reflexivity]. tauto.
  - intros Hus. destruct om as [m|]; simpl.
    + destruct Hmut as (_ & Hrows & Hc). rewrite Hc.
      destruct (userMutualFriendCount_rows db s (id u)); [contradiction|].
      reflexivity.
    + rewrite (Hmut Hus). reflexivity.
Qed.

(** Every friend whose user row exists and who has an accepted edge of their
    own has a row in the query of [getAll]. *)
Lemma getAll_query_complete (db : Database) (s v : Z) :
  hasUser db v = true ->
  acceptedEdge db s v = true ->
  acceptedFrom db v <> [] ->
  exists q, In q (getAll_query db s) /\ q_id q = v.
Proof.
  intros Hu He Hne.
  unfold hasUser in Hu. apply existsb_exists in Hu.
  destruct Hu as (u & Hu & Hid). apply Z.eqb_eq in Hid.
  apply acceptedEdge_true in He. destruct He as (f & Hf & Ha & Hfu & Hft).
  set (t := mkTotalRow v (countAll (acceptedFrom db v))).
  assert (Hl : In (u, f, t)
                  (innerJoin
                     (innerJoin (users db) (friendships db)
                        (fun friends f => friendUserId f =? id friends))
                     (userTotalFriendCount db)
                     (fun l t => tfc_userId t =? id (fst l)))).
  { apply in_innerJoin. repeat split.
    - apply in_innerJoin. repeat split; try assumption.
      apply Z.eqb_eq. congruence.
    - apply in_userTotalFriendCount. simpl. split; [assumption|reflexivity].
    - simpl. apply Z.eqb_eq. congruence. }
  assert (Hex : exists om, In (u, f, t, om) (getAll_joined db s)).
  { unfold getAll_joined.
    destruct (filter (fun m => mfc_user m =? id u)
                     (mutualFriendsCountAll db s)) as [|m ms] eqn:E.
    - exists None. apply in_leftJoin. split; [exact Hl|exact E].
    - exists (Some m). apply in_leftJoin. split; [exact Hl|].
      assert (Hm : In m (m :: ms)) by (left; reflexivity).
      rewrite <- E in Hm. apply filter_In in Hm. exact Hm. }
  destruct Hex as (om & Hin).
  exists (getAll_select (u, f, t, om)). split; [|exact Hid].
  unfold getAll_query, where_. apply in_map. apply filter_In.
  split; [exact Hin|]. unfold getAll_where. simpl.
  apply isAccepted_spec in Ha. apply Z.eqb_eq in Hfu.
  rewrite Hfu, Ha. reflexivity.
Qed.

(** Up to the missing default the two lookups agree: for a friend other
    than the requester, the mutual count of [getById] is the coalesced
    mutual count of the friend's row in the query of [getAll]. *)
Lemma getAll_query_mutual_coalesced (db : Database) (a b : Z)
  (q : QueryRow) (r : FriendRecord) :
  a <> b ->
  In q (getAll_query db a) -> q_id q = b ->
  getById db a b = Ok r ->
  coalesce (q_mutualFriendCount q) 0 = mutualFriendCount r.
Proof.
  intros Hab Hq Hid Hr.
  apply getAll_query_row in Hq. destruct Hq as (_ & _ & _ & _ & _ & Hm).
  rewrite Hid in Hm. rewrite Hm by congruence.
  apply getById_Ok_fields in Hr. destruct Hr as (_ & _ & Hmr & _).
  rewrite Hmr.
  destruct (userMutualFriendCount_rows db a b); reflexivity.
Qed.

Lemma parseFriends_Some (qs : list QueryRow) (rs : list FriendRecord) :
  parseFriends qs = Some rs ->
  forall r, In r rs -> exists q, In q qs /\ parseFriend q = Some r.
Proof.
  revert rs. induction qs as [|q qs IH]; simpl; intros rs H r Hr.
  - inversion H; subst. destruct Hr.
  - destruct (parseFriend q) as [r0|] eqn:E; [|discriminate].
    destruct (parseFriends qs) as [rs0|]; [|discriminate].
    inversion H; subst. destruct Hr as [Hr|Hr].
    + subst. exists q. split; [left; reflexivity|exact E].
    + destruct (IH rs0 eq_refl r Hr) as (q' & Hq' & Hp).
      exists q'. split; [right; exact Hq'|exact Hp].
Qed.

(** When [getAll] does answer, every record is a friend of the requester
    with the friend's exact total, and its mutual count is the one [getById]
    computes for the pair; it is at least 1, since a NULL does not pass the
    output schema. *)
Lemma getAll_Ok_record (db : Database) (s : Z) (rs : list FriendRecord)
  (r : FriendRecord) :
  getAll db s = Ok rs -> In r rs ->
  acceptedEdge db s (rec_id r) = true
  /\ rec_id r <> s
  /\ totalFriendCount r = countAll (acceptedFrom db (rec_id r))
  /\ mutualFriendCount r
     = countAll (userMutualFriendCount_rows db s (rec_id r))
  /\ 1 <= mutualFriendCount r.
Proof.
  unfold getAll. destruct (parseFriends (getAll_query db s)) as [rs'|] eqn:E;
    [|discriminate].
  intros H Hr. inversion H; subst rs'.
  destruct (parseFriends_Some _ _ E r Hr) as (q & Hq & Hp).
  apply parseFriend_Some in Hp.
  destruct Hp as (Pi & _ & _ & Pt & Pm & _).
  apply getAll_query_row in Hq.
  destruct Hq as (He & _ & _ & Ht & Hself & Hm).
  rewrite <- Pi in *.
  assert (Hns : rec_id r <> s).
  { intros Hs. rewrite (Hself Hs) in Pm. discriminate Pm. }
  specialize (Hm Hns). rewrite Pm in Hm.
  destruct (userMutualFriendCount_rows db s (rec_id r)) as [|p ps];
    [discriminate Hm|].
  injection Hm as Hm.
  repeat split; try assumption; try congruence.
  rewrite Hm. unfold countAll. simpl length. lia.
Qed.

(** ** One row per friend *)

Lemma uniqueb_NoDup {K : Type} (eqb : K -> K -> bool) (ks : list K) :
  (forall x y, eqb x y = true <-> x = y) ->
  uniqueb eqb ks = true -> NoDup ks.
Proof.
  intros Heq. induction ks as [|k ks IH]; simpl; intros H; constructor.
  - apply andb_true_iff in H. destruct H as [H _].
    apply negb_true_iff in H. intros Hin.
    assert (E : existsb (eqb k) ks = true).
    { apply existsb_exists. exists k. split; [exact Hin|].
      apply Heq. reflexivity. }
    congruence.
  - apply IH. apply andb_true_iff in H. tauto.
Qed.

Lemma NoDup_map_eq {A B : Type} (f : A -> B) (l : list A) (x y : A) :
  NoDup (map f l) -> In x l -> In y l -> f x = f y -> x = y.
Proof.
  induction l as [|a l IH]; simpl; intros Hnd Hx Hy Hf; [destruct Hx|].
  inversion Hnd as [|? ? Hnotin Hnd']; subst.
  destruct Hx as [Hx|Hx], Hy as [Hy|Hy]; subst.
  - reflexivity.
  - contradiction Hnotin. rewrite Hf. apply in_map. exact Hy.
  - contradiction Hnotin. rewrite <- Hf. apply in_map. exact Hx.
  - apply IH; assumption.
Qed.

Lemma NoDup_innerJoin {A B : Type} (l : list A) (r : list B)
  (on : A -> B -> bool) :
  NoDup l -> NoDup r -> NoDup (innerJoin l r on).
Proof.
  intros Hl Hr. unfold innerJoin.
  induction Hl as [|a l Ha Hl IH]; simpl; [constructor|].
  apply NoDup_app.
  - apply NoDup_map_NoDup_ForallPairs.
    + intros x y _ _ H. congruence.
    + apply NoDup_filter. exact Hr.
  - exact IH.
  - intros [a' b] H1 H2. apply in_map_iff in H1.
    destruct H1 as (b' & Heq & _). inversion Heq; subst.
    change (In (a', b) (innerJoin l r on)) in H2.
    apply in_innerJoin in H2. tauto.
Qed.

Lemma NoDup_leftJoin {A B : Type} (l : list A) (r : list B)
  (on : A -> B -> bool) :
  NoDup l -> NoDup r -> NoDup (leftJoin l r on).
Proof.
  intros Hl Hr. unfold leftJoin.
  induction Hl as [|a l Ha Hl IH]; cbn [flat_map]; [constructor|].
  apply NoDup_app.
  - pose proof (NoDup_filter (on a) Hr) as Hf.
    destruct (filter (on a) r) as [|m ms].
    + constructor; [intros []|constructor].
    + apply NoDup_map_NoDup_ForallPairs; [|exact Hf].
      intros x y _ _ H. congruence.
  - exact IH.
  - intros [a' ob] H1 H2.
    assert (a' = a).
    { destruct (filter (on a) r) as [|m ms].
      - destruct H1 as [H1|[]]. congruence.
      - apply in_map_iff in H1. destruct H1 as (b' & Heq & _). congruence. }
    subst a'. change (In (a, ob) (leftJoin l r on)) in H2.
    apply in_leftJoin in H2. tauto.
Qed.

Lemma NoDup_userTotalFriendCount_keys (db : Database) :
  NoDup (map tfc_userId (userTotalFriendCount db)).
Proof.
  unfold userTotalFriendCount. rewrite map_map. simpl.
  apply (NoDup_groupBy_keys Z.eqb Z.eqb_eq).
Qed.

Lemma NoDup_mutualFriendsCountAll_keys (db : Database) (s : Z) :
  NoDup (map (fun m => (mfc_user m, mfc_friend m))
             (mutualFriendsCountAll db s)).
Proof.
  unfold mutualFriendsCountAll, mutualFriendsCountAll_groups.
  rewrite map_map. simpl.
  rewrite (map_ext _ fst) by (intros [[? ?] ?]; reflexivity).
  apply (NoDup_groupBy_keys pair_eqb pair_eqb_eq).
Qed.

Lemma NoDup_userMutualFriendCount (db : Database) (s t : Z) :
  NoDup (userMutualFriendCount db s t).
Proof.
  rewrite userMutualFriendCount_shape.
  destruct (userMutualFriendCount_rows db s t).
  - constructor.
  - constructor; [intros []|constructor].
Qed.

Section OneRowPerFriend.
Variable db : Database.
Variable M : list MutualRow.
Variable J : list (User * Friendship * TotalRow * option MutualRow).
Hypothesis J_def :
  J = leftJoin
        (innerJoin
           (innerJoin (users db) (friendships db)
                      (fun friends f => friendUserId f =? id friends))
           (userTotalFriendCount db)
           (fun l t => tfc_userId t =? id (fst l)))
        M
        (fun l m => mfc_user m =? id (fst (fst l))).
Hypothesis keys : primaryKeys db = true.
Hypothesis M_NoDup : NoDup M.
Hypothesis M_user :
  forall m m', In m M -> In m' M -> mfc_user m = mfc_user m' -> m = m'.

Lemma primaryKeys_users : NoDup (map id (users db)).
Proof.
  unfold primaryKeys in keys. apply andb_true_iff in keys.
  apply (uniqueb_NoDup Z.eqb); [exact Z.eqb_eq|tauto].
Qed.

Lemma primaryKeys_friendships : NoDup (map edgeKey (friendships db)).
Proof.
  unfold primaryKeys in keys. apply andb_true_iff in keys.
  apply (uniqueb_NoDup pair_eqb); [exact pair_eqb_eq|tauto].
Qed.

Lemma joined_NoDup : NoDup J.
Proof.
  rewrite J_def. apply NoDup_leftJoin; [|exact M_NoDup].
  apply NoDup_innerJoin.
  - apply NoDup_innerJoin.
    + apply (NoDup_map_inv id). exact primaryKeys_users.
    + apply (NoDup_map_inv edgeKey). exact primaryKeys_friendships.
  - apply (NoDup_map_inv tfc_userId). apply NoDup_userTotalFriendCount_keys.
Qed.

(** Two joined rows for the same friend and with edges from the same source
    are the same row. *)
Lemma joined_same_friend r r' :
  In r J -> In r' J ->
  id (fst (fst (fst r))) = id (fst (fst (fst r'))) ->
  userId (snd (fst (fst r))) = userId (snd (fst (fst r'))) ->
  r = r'.
Proof.
  destruct r as [[[u f] t] om], r' as [[[u' f'] t'] om']. simpl.
  rewrite J_def. intros H H' Hid Hsrc.
  apply in_leftJoin in H, H'. destruct H as [H Hom], H' as [H' Hom'].
  apply in_innerJoin in H, H'.
  destruct H as (H & Ht & Hton), H' as (H' & Ht' & Hton').
  apply in_innerJoin in H, H'.
  destruct H as (Hu & Hf & Hfon), H' as (Hu' & Hf' & Hfon').
  simpl in *. apply Z.eqb_eq in Hton, Hton', Hfon, Hfon'.
  assert (u = u') by (apply (NoDup_map_eq id (users db));
                      [exact primaryKeys_users|assumption..]).
  subst u'.
  assert (f = f').
  { apply (NoDup_map_eq edgeKey (friendships db));
      [exact primaryKeys_friendships|assumption..|].
    unfold edgeKey. congruence. }
  subst f'.
  assert (t = t').
  { apply (NoDup_map_eq tfc_userId (userTotalFriendCount db));
      [apply NoDup_userTotalFriendCount_keys|assumption..|congruence]. }
  subst t'.
  f_equal.
  destruct om as [m|], om' as [m'|].
  - f_equal. destruct Hom as [Hm Hmu], Hom' as [Hm' Hmu'].
    apply Z.eqb_eq in Hmu, Hmu'. apply M_user; congruence.
  - destruct Hom as [Hm Hmu].
    assert (Hin : In m (filter (fun m0 => mfc_user m0 =? id u) M))
      by (apply filter_In; tauto).
    rewrite Hom' in Hin. destruct Hin.
  - destruct Hom' as [Hm Hmu].
    assert (Hin : In m' (filter (fun m0 => mfc_user m0 =? id u) M))
      by (apply filter_In; tauto).
    rewrite Hom in Hin. destruct Hin.
  - reflexivity.
Qed.
End OneRowPerFriend.

(** With the tables' keys, the query of [getAll] has at most one row per
    friend. *)
Lemma getAll_query_ids_NoDup (db : Database) (s : Z) :
  primaryKeys db = true -> NoDup (map q_id (getAll_query db s)).
Proof.
  intros Hk. unfold getAll_query, where_. rewrite map_map.
  assert (HM : forall m m', In m (mutualFriendsCountAll db s) ->
                            In m' (mutualFriendsCountAll db s) ->
                            mfc_user m = mfc_user m' -> m = m').
  { intros m m' Hm Hm' Hu.
    apply (NoDup_map_eq (fun m => (mfc_user m, mfc_friend m))
                        (mutualFriendsCountAll db s));
      [apply NoDup_mutualFriendsCountAll_keys|assumption..|].
    apply in_mutualFriendsCountAll in Hm, Hm'.
    destruct Hm as [Hf _], Hm' as [Hf' _]. congruence. }
  assert (HMnd : NoDup (mutualFriendsCountAll db s)).
  { apply (NoDup_map_inv (fun m => (mfc_user m, mfc_friend m))).
    apply NoDup_mutualFriendsCountAll_keys. }
  apply NoDup_map_NoDup_ForallPairs.
  - intros r r' Hr Hr' Hid. apply filter_In in Hr, Hr'.
    destruct Hr as [Hr Hw], Hr' as [Hr' Hw'].
    unfold getAll_where in Hw, Hw'.
    apply andb_true_iff in Hw, Hw'. destruct Hw as [Hw _], Hw' as [Hw' _].
    apply Z.eqb_eq in Hw, Hw'.
    apply (joined_same_friend db (mutualFriendsCountAll db s)
             (getAll_joined db s) eq_refl Hk HM r r' Hr Hr').
    + exact Hid.
    + congruence.
  - apply NoDup_filter.
    apply (joined_NoDup db (mutualFriendsCountAll db s) (getAll_joined db s)
             eq_refl Hk HMnd).
Qed.

(** With the tables' keys, the query of [getById] has at most one row, so
    the row taken first does not depend on the order of the result. *)
Lemma getById_query_at_most_one (db : Database) (s t : Z) :
  primaryKeys db = true -> (length (getById_query db s t) <= 1)%nat.
Proof.
  intros Hk. unfold getById_query, where_. rewrite length_map.
  assert (HM : forall m m', In m (userMutualFriendCount db s t) ->
                            In m' (userMutualFriendCount db s t) ->
                            mfc_user m = mfc_user m' -> m = m').
  { intros m m'. rewrite userMutualFriendCount_shape.
    destruct (userMutualFriendCount_rows db s t); [intros []|].
    intros [<-|[]] [<-|[]] _. reflexivity. }
  pose proof (joined_NoDup db (userMutualFriendCount db s t)
                (getById_joined db s t) eq_refl Hk
                (NoDup_userMutualFriendCount db s t)) as Hnd.
  apply (NoDup_filter (getById_where s t)) in Hnd.
  destruct (filter (getById_where s t) (getById_joined db s t))
    as [|r [|r' rest]] eqn:E; simpl; try lia.
  exfalso.
  assert (Hr : In r (filter (getById_where s t) (getById_joined db s t)))
    by (rewrite E; left; reflexivity).
  assert (Hr' : In r' (filter (getById_where s t) (getById_joined db s t)))
    by (rewrite E; right; left; reflexivity).
  apply filter_In in Hr, Hr'. destruct Hr as [Hr Hw], Hr' as [Hr' Hw'].
  unfold getById_where in Hw, Hw'.
  apply andb_true_iff in Hw, Hw'. destruct Hw as [Hw _], Hw' as [Hw' _].
  apply andb_true_iff in Hw, Hw'.
  destruct Hw as [Hu Hf], Hw' as [Hu' Hf'].
  apply Z.eqb_eq in Hu, Hu', Hf, Hf'.
  assert (Hid : forall x, In x (getById_joined db s t) ->
                          friendUserId (snd (fst (fst x)))
                          = id (fst (fst (fst x)))).
  { intros [[[u f] tt] om] Hx. unfold getById_joined in Hx.
    apply in_leftJoin in Hx. destruct Hx as [Hx _].
    apply in_innerJoin in Hx. destruct Hx as (Hx & _ & _).
    apply in_innerJoin in Hx. destruct Hx as (_ & _ & Hon).
    apply Z.eqb_eq in Hon. exact Hon. }
  assert (r = r').
  { apply (joined_same_friend db (userMutualFriendCount db s t)
             (getById_joined db s t) eq_refl Hk HM r r' Hr Hr').
    - rewrite <- (Hid r Hr), <- (Hid r' Hr'). congruence.
    - congruence. }
  subst r'. inversion Hnd as [|? ? Hnotin _]; subst.
  apply Hnotin. left. reflexivity.
Qed.

(** Under the symmetry invariant the ids in the query of [getAll] are the
    requester's friends. *)
Lemma getAll_query_ids (db : Database) (s v : Z) :
  wellFormed db = true ->
  symmetricb db = true ->
  In v (map q_id (getAll_query db s)) <-> acceptedEdge db s v = true.
Proof.
  intros Hw Hs. rewrite in_map_iff. split.
  - intros (q & Hid & Hq). apply getAll_query_row in Hq.
    destruct Hq as [He _]. congruence.
  - intros He.
    destruct (getAll_query_complete db s v) as (q & Hq & Hid).
    + apply (wellFormed_target db s v); assumption.
    + exact He.
    + apply (acceptedEdge_acceptedFrom db v s).
      apply symmetricb_reverse; assumption.
    + exists q. tauto.
Qed.

(** ** [getAll1] *)

Lemma in_friendsFriendships (db : Database) (s : Z) (e : EdgeRow) :
  In e (friendsFriendships db s) <->
  exists f, In f (friendships db) /\ status f = accepted
            /\ userId f <> s /\ e = projectEdge f.
Proof.
  unfold friendsFriendships, where_. rewrite in_map_iff. split.
  - intros (f & He & Hf). apply filter_In in Hf. destruct Hf as [Hf Hs].
    apply filter_In in Hf. destruct Hf as [Hf Ha].
    apply negb_true_iff in Hs. apply Z.eqb_neq in Hs.
    apply isAccepted_spec in Ha. exists f. repeat split; congruence.
  - intros (f & Hf & Ha & Hs & He). exists f. split; [congruence|].
    apply filter_In. split.
    + apply filter_In. split; [exact Hf|]. apply isAccepted_spec. exact Ha.
    + apply negb_true_iff. apply Z.eqb_neq. exact Hs.
Qed.

(** The main query of [getAll1] is driven by the edges of everybody but the
    requester: it has a row for a user exactly when the user is not the
    requester and an accepted edge leaves the user, friend of the requester
    or not. *)
Lemma getAll1_query_ids (db : Database) (s v : Z) :
  In v (map q_id (getAll1_query db s)) <->
  v <> s /\ hasUser db v = true /\ acceptedFrom db v <> [].
Proof.
  unfold getAll1_query. rewrite in_map_iff. split.
  - intros (q & Hid & Hq). apply in_flat_map in Hq.
    destruct Hq as ([k g] & Hg & Hq).
    apply (in_groupBy Z.eqb Z.eqb_eq) in Hg. destruct Hg as [_ Hg].
    unfold getAll1_select in Hq. simpl in Hq.
    destruct g as [|[[u e] om] g']; [destruct Hq|].
    destruct Hq as [Hq|[]]. subst q. simpl in Hid.
    assert (Hin : In (u, e, om) ((u, e, om) :: g')) by (left; reflexivity).
    rewrite Hg in Hin. apply filter_In in Hin. destruct Hin as [Hin _].
    unfold getAll1_joined in Hin. apply in_leftJoin in Hin.
    destruct Hin as [Hin _]. apply in_innerJoin in Hin.
    destruct Hin as (Hu & He & Hon). apply Z.eqb_eq in Hon.
    apply in_friendsFriendships in He.
    destruct He as (f & Hf & Ha & Hs & He). subst e. simpl in Hon.
    subst v. repeat split.
    + congruence.
    + unfold hasUser. apply existsb_exists. exists u.
      split; [exact Hu|apply Z.eqb_refl].
    + apply not_nil_In. exists f. apply acceptedFrom_In. tauto.
  - intros (Hs & Hu & Hne).
    unfold hasUser in Hu. apply existsb_exists in Hu.
    destruct Hu as (u & Hu & Hid). apply Z.eqb_eq in Hid.
    apply not_nil_In in Hne. destruct Hne as (f & Hf).
    apply acceptedFrom_In in Hf. destruct Hf as (Hf & Ha & Hfu).
    assert (Hl : In (u, projectEdge f)
                    (innerJoin (users db) (friendsFriendships db s)
                       (fun friends ff => e_userId ff =? id friends))).
    { apply in_innerJoin. repeat split; [exact Hu| |].
      - apply in_friendsFriendships. exists f. repeat split; congruence.
      - simpl. apply Z.eqb_eq. congruence. }
    assert (Hex : exists om, In (u, projectEdge f, om) (getAll1_joined db s)).
    { unfold getAll1_joined.
      destruct (filter (fun m => mfc_friend m =? id u)
                       (getAll1_mutualFriendCount db s)) as [|m ms] eqn:E.
      - exists None. apply in_leftJoin. split; [exact Hl|exact E].
      - exists (Some m). apply in_leftJoin. split; [exact Hl|].
        assert (Hm : In m (m :: ms)) by (left; reflexivity).
        rewrite <- E in Hm. apply filter_In in Hm. exact Hm. }
    destruct Hex as (om & Hin).
    set (key := fun r : User * EdgeRow * option MutualRow => id (fst (fst r))).
    set (g := filter (fun r => key r =? v) (getAll1_joined db s)).
    assert (Hing : In (u, projectEdge f, om) g).
    { apply filter_In. split; [exact Hin|]. unfold key. simpl.
      apply Z.eqb_eq. exact Hid. }
    assert (Hgrp : In (v, g) (groupBy Z.eqb key (getAll1_joined db s))).
    { apply (in_groupBy Z.eqb Z.eqb_eq). split; [|reflexivity].
      exists (u, projectEdge f, om). split; [exact Hin|exact Hid]. }
    destruct g as [|r0 g'] eqn:Eg; [destruct Hing|].
    assert (Hr0 : In r0 g) by (rewrite Eg; left; reflexivity).
    unfold g in Hr0. apply filter_In in Hr0. destruct Hr0 as [_ Hk].
    apply Z.eqb_eq in Hk.
    eexists. split; [|apply in_flat_map; exists (v, r0 :: g');
                      split; [exact Hgrp|left; reflexivity]].
    simpl. exact Hk.
Qed.

(** * The claims *)

(** ** Mutual symmetry *)

(** C7. For every edge state and every pair (A, B), the single-pair
    aggregator [userMutualFriendCount] yields the same count for the ordered
    pair (A, B) as for (B, A): either both sub-queries have no row, or both
    have one row with one and the same [mutualFriendCount]. Accepted pairs
    are a special case. *)
Theorem userMutualFriendCount_symmetric (db : Database) (a b : Z) :
  map mfc_mutualFriendCount (userMutualFriendCount db a b)
  = map mfc_mutualFriendCount (userMutualFriendCount db b a).
Proof.
  rewrite !userMutualFriendCount_shape.
  pose proof (userMutualFriendCount_rows_swap db a b) as Hlen.
  destruct (userMutualFriendCount_rows db a b) as [|p ps],
           (userMutualFriendCount_rows db b a) as [|p' ps'];
    try discriminate Hlen; [reflexivity|].
  simpl. unfold countAll. rewrite Hlen. reflexivity.
Qed.

(** ** Target's total *)

(** C5. For every edge state and pair (A, B): a record that [getById]
    returns to A for target B has as [totalFriendCount] the number of
    accepted edges leaving B, hence the same number as the record returned
    to any other requester C; and for an accepted pair (A, B) of a
    well-formed store under the symmetry invariant the record is returned. *)
Theorem getById_totalFriendCount_is_targets_total (db : Database) (a b : Z) :
  (forall r, getById db a b = Ok r ->
             totalFriendCount r = Z.of_nat (length (acceptedFrom db b))
             /\ forall c r', getById db c b = Ok r' ->
                             totalFriendCount r' = totalFriendCount r)
  /\ (wellFormed db = true -> symmetricb db = true ->
      acceptedEdge db a b = true ->
      exists r, getById db a b = Ok r).
Proof.
  split.
  - intros r Hr. apply getById_Ok_fields in Hr. destruct Hr as (_ & Ht & _).
    split; [exact Ht|].
    intros c r' Hr'. apply getById_Ok_fields in Hr'.
    destruct Hr' as (_ & Ht' & _). congruence.
  - intros Hw Hs He.
    assert (Hne : acceptedFrom db b <> []).
    { apply (acceptedEdge_acceptedFrom db b a).
      apply symmetricb_reverse; assumption. }
    destruct (getById_returns db a b Hw He Hne) as (r & Hr & _).
    exists r. exact Hr.
Qed.

Lemma getById_totalFriendCount_is_targets_total_witness :
  (totalFriendCount (mkFriendRecord 1 "Alice" "0900000001" 4 1)
   = Z.of_nat (length (acceptedFrom db_web 1))
   /\ totalFriendCount (mkFriendRecord 1 "Alice" "0900000001" 4 2)
      = totalFriendCount (mkFriendRecord 1 "Alice" "0900000001" 4 1))
  /\ exists r, getById db_web 3 1 = Ok r.
Proof.
  destruct (getById_totalFriendCount_is_targets_total db_web 3 1) as [H1 H2].
  destruct (H1 (mkFriendRecord 1 "Alice" "0900000001" 4 1) eq_refl)
    as [Ht Hc].
  split; [split|].
  - exact Ht.
  - exact (Hc 2 (mkFriendRecord 1 "Alice" "0900000001" 4 2) eq_refl).
  - apply H2; reflexivity.
Defined.

(** ** NotFound *)

(** C3, counterexample. With only the edge (1, 2, accepted) stored, the
    accepted edge exists and [getById] still fails with NotFound. *)
Lemma getById_NOT_FOUND_despite_accepted_edge :
  ~ (getById db_oneway 1 2 = NOT_FOUND
     <-> acceptedEdge db_oneway 1 2 = false).
Proof.
  intros [H _]. specialize (H eq_refl). discriminate H.
Qed.

(** C3, amended. In a well-formed store under the symmetry invariant,
    [getById] fails with NotFound if and only if no accepted edge
    (requesterId, targetId) exists; when such an edge exists it returns one
    record, whose id is targetId, and with the tables' keys the query has
    exactly one row. *)
Theorem getById_NOT_FOUND_iff_no_accepted_edge (db : Database) (s t : Z) :
  wellFormed db = true ->
  symmetricb db = true ->
  (getById db s t = NOT_FOUND <-> acceptedEdge db s t = false)
  /\ (acceptedEdge db s t = true ->
      (exists r, getById db s t = Ok r /\ rec_id r = t)
      /\ (primaryKeys db = true ->
          length (getById_query db s t) = 1%nat)).
Proof.
  intros Hw Hs.
  assert (Hret : acceptedEdge db s t = true ->
                 exists r, getById db s t = Ok r /\ rec_id r = t).
  { intros He.
    assert (Hne : acceptedFrom db t <> []).
    { apply (acceptedEdge_acceptedFrom db t s).
      apply symmetricb_reverse; assumption. }
    destruct (getById_returns db s t Hw He Hne) as (r & Hr & Hid & _).
    exists r. tauto. }
  split; [split|].
  - intros Hnf. destruct (acceptedEdge db s t) eqn:E; [|reflexivity].
    destruct (Hret eq_refl) as (r & Hr & _). congruence.
  - intros He. apply getById_NOT_FOUND_query.
    destruct (getById_query db s t) as [|q qs] eqn:E; [reflexivity|].
    assert (Hin : In q (getById_query db s t)) by (rewrite E; left; reflexivity).
    apply getById_query_row in Hin. destruct Hin as (_ & _ & _ & _ & He' & _).
    congruence.
  - intros He. split; [exact (Hret He)|].
    intros Hk. pose proof (getById_query_at_most_one db s t Hk) as Hle.
    destruct (Hret He) as (r & Hr & _). unfold getById in Hr.
    destruct (getById_query db s t) as [|q qs]; [discriminate Hr|].
    simpl in *. lia.
Qed.

Lemma getById_NOT_FOUND_iff_no_accepted_edge_witness :
  (getById db_web 2 5 = NOT_FOUND <-> acceptedEdge db_web 2 5 = false)
  /\ (exists r, getById db_web 1 5 = Ok r /\ rec_id r = 5)
  /\ length (getById_query db_web 1 5) = 1%nat.
Proof.
  split; [|split].
  - apply (getById_NOT_FOUND_iff_no_accepted_edge db_web 2 5); reflexivity.
  - apply (getById_NOT_FOUND_iff_no_accepted_edge db_web 1 5); reflexivity.
  - apply (getById_NOT_FOUND_iff_no_accepted_edge db_web 1 5); reflexivity.
Defined.

(** ** Target without accepted edges *)

(** C8, counterexample. Alice has an accepted edge to Bob, no accepted edge
    leaves Bob, and [getById] does not return Bob's record. *)
Lemma getById_drops_target_without_total :
  acceptedEdge db_pending 1 2 = true
  /\ acceptedFrom db_pending 2 = []
  /\ ~ (exists r, getById db_pending 1 2 = Ok r).
Proof.
  repeat split. intros (r & H). discriminate H.
Qed.

(** C8, amended. The total-count aggregate is joined with an inner join:
    whenever no accepted edge leaves the target, [getById] fails with
    NotFound, also when the accepted edge (requesterId, targetId) exists; a
    record that is returned always has [totalFriendCount >= 1]. *)
Theorem getById_inner_join_on_total (db : Database) (s t : Z) :
  (countAll (acceptedFrom db t) = 0 -> getById db s t = NOT_FOUND)
  /\ (forall r, getById db s t = Ok r -> 1 <= totalFriendCount r).
Proof.
  split.
  - intros Hz. apply countAll_zero in Hz. apply getById_NOT_FOUND_query.
    destruct (getById_query db s t) as [|q qs] eqn:E; [reflexivity|].
    assert (Hin : In q (getById_query db s t)) by (rewrite E; left; reflexivity).
    apply getById_query_row in Hin. destruct Hin as (_ & _ & _ & _ & _ & Hne).
    contradiction.
  - intros r Hr. apply getById_Ok_fields in Hr.
    destruct Hr as (_ & Ht & _ & _ & Hne). rewrite Ht.
    unfold countAll. destruct (acceptedFrom db t); [contradiction|simpl; lia].
Qed.

Lemma getById_inner_join_on_total_witness :
  getById db_pending 1 2 = NOT_FOUND
  /\ 1 <= totalFriendCount (mkFriendRecord 2 "Bob" "0900000002" 1 0).
Proof.
  split.
  - apply (proj1 (getById_inner_join_on_total db_pending 1 2)). reflexivity.
  - apply (proj2 (getById_inner_join_on_total db_pair 1 2)). reflexivity.
Defined.

(** ** No self-counting *)

(** C6, counterexample. With the accepted self-edge (1, 1) next to the
    friendship of 1 and 2, both aggregators give the pair (1, 2) the count 1
    and the one joined row they count has user 1 itself as shared
    neighbour. *)
Lemma self_edge_counted_as_mutual_friend :
  userMutualFriendCount db_self 1 2 = [mkMutualRow 2 1 1]
  /\ mutualFriendsCountAll db_self 1 = [mkMutualRow 2 1 1]
  /\ ~ (forall g p, In g (userMutualFriendCount_groups db_self 1 2) ->
                    In p (snd g) ->
                    friendUserId (fst p) <> 1 /\ friendUserId (fst p) <> 2)
  /\ ~ (forall g p, In g (mutualFriendsCountAll_groups db_self 1) ->
                    fst g = (2, 1) -> In p (snd g) ->
                    friendUserId (fst p) <> 1 /\ friendUserId (fst p) <> 2).
Proof.
  split; [reflexivity|]. split; [reflexivity|]. split.
  - intros H.
    destruct (H ((2, 1), [(mkFriendship 2 1 accepted, mkFriendship 1 1 accepted)])
                (mkFriendship 2 1 accepted, mkFriendship 1 1 accepted)) as [H1 _].
    + left. reflexivity.
    + left. reflexivity.
    + apply H1. reflexivity.
  - intros H.
    destruct (H ((2, 1), [(mkFriendship 2 1 accepted, mkFriendship 1 1 accepted)])
                (mkFriendship 2 1 accepted, mkFriendship 1 1 accepted)) as [H1 _].
    + left. reflexivity.
    + reflexivity.
    + left. reflexivity.
    + apply H1. reflexivity.
Qed.

(** C6, amended. For every edge state and pair (A, B) such that neither
    (A, A) nor (B, B) is an accepted edge, every joined row that the
    single-pair aggregator counts for (A, B), and every joined row that the
    batch aggregator of A counts in B's group, has a shared neighbour w with
    w <> A and w <> B. (Each sub-query's [mutualFriendCount] is the size of
    the group, see [mutualRow].) *)
Theorem mutual_count_excludes_endpoints (db : Database) (a b : Z) :
  acceptedEdge db a a = false ->
  acceptedEdge db b b = false ->
  (forall g p, In g (userMutualFriendCount_groups db a b) ->
               In p (snd g) ->
               friendUserId (fst p) <> a /\ friendUserId (fst p) <> b)
  /\ (forall g p, In g (mutualFriendsCountAll_groups db a) ->
                  fst g = (b, a) -> In p (snd g) ->
                  friendUserId (fst p) <> a /\ friendUserId (fst p) <> b).
Proof.
  intros Ha Hb.
  assert (Hno : forall f1 f2 : Friendship,
             In f1 (friendships db) -> In f2 (friendships db) ->
             status f1 = accepted -> status f2 = accepted ->
             friendUserId f1 = friendUserId f2 ->
             userId f1 = b -> userId f2 = a ->
             friendUserId f1 <> a /\ friendUserId f1 <> b).
  { intros f1 f2 H1 H2 S1 S2 Hw U1 U2. split; intros Hc.
    - assert (E : acceptedEdge db a a = true).
      { apply acceptedEdge_true. exists f2. repeat split; congruence. }
      congruence.
    - assert (E : acceptedEdge db b b = true).
      { apply acceptedEdge_true. exists f1. repeat split; congruence. }
      congruence. }
  split.
  - intros [k g] [f1 f2] Hg Hp. simpl in *.
    unfold userMutualFriendCount_groups in Hg.
    apply (in_groupBy pair_eqb pair_eqb_eq) in Hg. destruct Hg as [_ Hg].
    subst g. apply filter_In in Hp. destruct Hp as [Hp _].
    apply in_userMutualFriendCount_rows in Hp.
    destruct Hp as (H1 & H2 & Hw & S1 & S2 & U1 & U2).
    apply (Hno f1 f2); assumption.
  - intros [k g] [f1 f2] Hg Hk Hp. simpl in *. subst k.
    unfold mutualFriendsCountAll_groups in Hg.
    apply (in_groupBy pair_eqb pair_eqb_eq) in Hg. destruct Hg as [_ Hg].
    subst g. apply filter_In in Hp. destruct Hp as [Hp Hkey].
    apply pair_eqb_eq in Hkey. unfold mutualKey in Hkey. simpl in Hkey.
    injection Hkey as U1 U2.
    apply in_mutualFriendsCountAll_rows in Hp.
    destruct Hp as (H1 & H2 & Hw & _ & _ & S1 & S2).
    apply (Hno f1 f2); assumption.
Qed.

Lemma mutual_count_excludes_endpoints_witness :
  (forall g p, In g (userMutualFriendCount_groups db_web 1 2) ->
               In p (snd g) ->
               friendUserId (fst p) <> 1 /\ friendUserId (fst p) <> 2)
  /\ (forall g p, In g (mutualFriendsCountAll_groups db_web 1) ->
                  fst g = (2, 1) -> In p (snd g) ->
                  friendUserId (fst p) <> 1 /\ friendUserId (fst p) <> 2).
Proof.
  apply (mutual_count_excludes_endpoints db_web 1 2); reflexivity.
Defined.

(** ** Input validation *)

(** C9. For every store, every caller and every input whose [friendUserId]
    is malformed (a non-positive integer or a value of another type),
    [getById] ends with the input schema's rejection and no query was sent
    to the store. *)
Theorem getById_rejects_malformed_id (db : Database) (sessionUserId : Z)
  (input : GetByIdInput) :
  malformedId (in_friendUserId input) = true ->
  result (getById_procedure db sessionUserId input) = BAD_REQUEST
  /\ queries (getById_procedure db sessionUserId input) = 0%nat.
Proof.
  unfold getById_procedure, malformedId, IdSchema.
  destruct (in_friendUserId input) as [z| |s|b| |]; intros H;
    try (split; reflexivity).
  apply Z.leb_le in H.
  destruct (0 <? z) eqn:E; [apply Z.ltb_lt in E; lia|split; reflexivity].
Qed.

Lemma getById_rejects_malformed_id_witness :
  (result (getById_procedure db_web 1 (mkGetByIdInput (JsInt 0))) = BAD_REQUEST
   /\ queries (getById_procedure db_web 1 (mkGetByIdInput (JsInt 0))) = 0%nat)
  /\ (result (getById_procedure db_web 1 (mkGetByIdInput (JsString "2")))
      = BAD_REQUEST
      /\ queries (getById_procedure db_web 1 (mkGetByIdInput (JsString "2")))
         = 0%nat).
Proof.
  split.
  - apply (getById_rejects_malformed_id db_web 1 (mkGetByIdInput (JsInt 0))).
    reflexivity.
  - apply (getById_rejects_malformed_id db_web 1
             (mkGetByIdInput (JsString "2"))).
    reflexivity.
Defined.

(** ** The missing zero default of [getAll] *)

(** C1, at the failing input. Alice and Bob are friends and share nobody:
    [getById] answers Alice with Bob's record and [mutualFriendCount = 0];
    the query of [getAll] yields Bob's row with NULL in that column, and the
    output schema rejects it, so [getAll] has no record of Bob to compare
    with. *)
Theorem cross_consistency_lost_on_NULL :
  symmetricb db_pair = true
  /\ acceptedEdge db_pair 1 2 = true
  /\ getById db_pair 1 2 = Ok (mkFriendRecord 2 "Bob" "0900000002" 1 0)
  /\ getAll_query db_pair 1 = [mkQueryRow 2 "Bob" "0900000002" 1 None]
  /\ getAll db_pair 1 = INTERNAL_SERVER_ERROR.
Proof. repeat split. Qed.

(** C2, at the failing input. In the web of the test suite Erin is Alice's
    friend and shares no neighbour with her: [getById] gives Erin
    [mutualFriendCount = 0], while [getAll] reads NULL for Erin and fails as
    a whole. *)
Theorem getAll_has_no_zero_default :
  acceptedEdge db_web 1 5 = true
  /\ userMutualFriendCount_rows db_web 1 5 = []
  /\ getById db_web 1 5 = Ok (mkFriendRecord 5 "Erin" "0900000005" 1 0)
  /\ In (mkQueryRow 5 "Erin" "0900000005" 1 None) (getAll_query db_web 1)
  /\ getAll db_web 1 = INTERNAL_SERVER_ERROR.
Proof.
  repeat split. simpl. do 3 right. left. reflexivity.
Qed.

(** C4, at the failing input. In the star around Alice the symmetry
    invariant holds and Alice has four accepted edges; the query of [getAll]
    has one row per friend, each with NULL as [mutualFriendCount], and
    [getAll] returns no record at all. *)
Theorem getAll_fails_on_star :
  symmetricb db_star = true
  /\ map q_id (getAll_query db_star 1) = [2; 3; 4; 5]
  /\ map q_mutualFriendCount (getAll_query db_star 1)
     = [None; None; None; None]
  /\ getAll db_star 1 = INTERNAL_SERVER_ERROR.
Proof. repeat split. Qed.

(** ** [getAll] against [getAll1] *)

(** C10, at the failing input. Dave is a friend of Bob and not of Alice.
    [getAll] answers Alice with Bob and Carol; [getAll1] answers her with
    Bob, Carol and Dave. *)
Theorem getAll1_returns_non_friends :
  acceptedEdge db_triangle_tail 1 4 = false
  /\ getAll db_triangle_tail 1
     = Ok [mkFriendRecord 2 "Bob" "0900000002" 3 1;
           mkFriendRecord 3 "Carol" "0900000003" 2 1]
  /\ getAll1 db_triangle_tail 1
     = Ok [mkFriendRecord 2 "Bob" "0900000002" 3 1;
           mkFriendRecord 3 "Carol" "0900000003" 2 1;
           mkFriendRecord 4 "Dave" "0900000004" 1 1].
Proof. repeat split. Qed.

(** * Further properties of the queries *)

(** ** The aggregators on their own *)

(** X1. The total-count aggregate has a row for a user exactly when an
    accepted edge leaves that user; the row holds the exact number of these
    edges, which is at least 1, and no user has two rows. Requested and
    declined edges never produce a row. *)
Theorem userTotalFriendCount_rows_exact (db : Database) :
  (forall t, In t (userTotalFriendCount db) <->
             acceptedFrom db (tfc_userId t) <> []
             /\ tfc_totalFriendCount t
                = Z.of_nat (length (acceptedFrom db (tfc_userId t))))
  /\ (forall t, In t (userTotalFriendCount db) -> 1 <= tfc_totalFriendCount t)
  /\ NoDup (map tfc_userId (userTotalFriendCount db)).
Proof.
  split; [|split].
  - intros t. apply in_userTotalFriendCount.
  - intros t Ht. apply in_userTotalFriendCount in Ht. destruct Ht as [Hne Hc].
    rewrite Hc. unfold countAll.
    destruct (acceptedFrom db (tfc_userId t)); [contradiction|simpl; lia].
  - apply NoDup_userTotalFriendCount_keys.
Qed.

Lemma userTotalFriendCount_rows_exact_witness :
  In (mkTotalRow 2 3) (userTotalFriendCount db_web)
  /\ 1 <= tfc_totalFriendCount (mkTotalRow 2 3)
  /\ ~ In (mkTotalRow 2 1) (userTotalFriendCount db_pending).
Proof.
  destruct (userTotalFriendCount_rows_exact db_web) as (H1 & H2 & _).
  destruct (userTotalFriendCount_rows_exact db_pending) as (H3 & _ & _).
  assert (Hin : In (mkTotalRow 2 3) (userTotalFriendCount db_web)).
  { apply H1. simpl. split; [discriminate|reflexivity]. }
  split; [exact Hin|]. split; [exact (H2 _ Hin)|].
  intros H. apply H3 in H. destruct H as [H _]. apply H. reflexivity.
Defined.

(** X2. For a fixed pair the single-pair aggregate never has more than one
    row: none when no two accepted edges of the pair meet, and otherwise one
    row keyed (friendUserId, userId) whose count is the number of joined
    rows. A count of 0 is never produced. *)
Theorem userMutualFriendCount_at_most_one_row (db : Database) (u v : Z) :
  (length (userMutualFriendCount db u v) <= 1)%nat
  /\ (userMutualFriendCount db u v = []
      <-> userMutualFriendCount_rows db u v = [])
  /\ (forall m, In m (userMutualFriendCount db u v) ->
                mfc_user m = v /\ mfc_friend m = u
                /\ mfc_mutualFriendCount m
                   = Z.of_nat (length (userMutualFriendCount_rows db u v))
                /\ 1 <= mfc_mutualFriendCount m).
Proof.
  rewrite userMutualFriendCount_shape.
  destruct (userMutualFriendCount_rows db u v) as [|p ps]; simpl.
  - split; [lia|]. split; [tauto|]. intros m [].
  - split; [lia|]. split; [split; discriminate|].
    intros m [<-|[]]. simpl. unfold countAll. simpl length.
    repeat split; lia.
Qed.

Lemma userMutualFriendCount_at_most_one_row_witness :
  mfc_user (mkMutualRow 2 1 2) = 2 /\ mfc_friend (mkMutualRow 2 1 2) = 1
  /\ mfc_mutualFriendCount (mkMutualRow 2 1 2)
     = Z.of_nat (length (userMutualFriendCount_rows db_web 1 2))
  /\ 1 <= mfc_mutualFriendCount (mkMutualRow 2 1 2).
Proof.
  apply (userMutualFriendCount_at_most_one_row db_web 1 2).
  left. reflexivity.
Defined.

(** X3. The batch aggregate of a requester, read at any other user b, is
    the single-pair aggregate of the pair: a row with user b is in
    [mutualFriendsCountAll] exactly when it is the row of
    [userMutualFriendCount] for (requester, b). The batch aggregate never
    has a row for the requester itself. *)
Theorem mutualFriendsCountAll_is_single_pair (db : Database) (s b : Z)
  (m : MutualRow) :
  (b <> s ->
   (In m (mutualFriendsCountAll db s) /\ mfc_user m = b
    <-> In m (userMutualFriendCount db s b)))
  /\ (In m (mutualFriendsCountAll db s) ->
      mfc_user m <> s /\ mfc_friend m = s).
Proof.
  split.
  - intros Hbs. rewrite in_mutualFriendsCountAll, userMutualFriendCount_shape.
    split.
    + intros ((Hf & _ & Hne & Hc) & Hu). subst b.
      destruct (userMutualFriendCount_rows db s (mfc_user m)) as [|p ps];
        [contradiction|].
      left. destruct m as [mu mf mc]. simpl in *. congruence.
    + intros Hin.
      destruct (userMutualFriendCount_rows db s b) as [|p ps] eqn:E;
        [destruct Hin|].
      destruct Hin as [<-|[]]. simpl. rewrite E.
      repeat split; try assumption; try reflexivity. discriminate.
  - intros Hin. apply in_mutualFriendsCountAll in Hin. tauto.
Qed.

Lemma mutualFriendsCountAll_is_single_pair_witness :
  (In (mkMutualRow 2 1 2) (mutualFriendsCountAll db_web 1)
   /\ mfc_user (mkMutualRow 2 1 2) = 2
   <-> In (mkMutualRow 2 1 2) (userMutualFriendCount db_web 1 2))
  /\ (mfc_user (mkMutualRow 2 1 2) <> 1
      /\ mfc_friend (mkMutualRow 2 1 2) = 1).
Proof.
  destruct (mutualFriendsCountAll_is_single_pair db_web 1 2
              (mkMutualRow 2 1 2)) as [H1 H2].
  split.
  - apply H1. discriminate.
  - apply H2. left. reflexivity.
Defined.

(** ** [getById] for arbitrary stores *)

Lemma getById_query_hasUser (db : Database) (s t : Z) (q : QueryRow) :
  In q (getById_query db s t) -> hasUser db t = true.
Proof.
  intros Hq. apply getById_query_row in Hq.
  destruct Hq as (_ & (u & Hu & Hid & _) & _).
  unfold hasUser. apply existsb_exists. exists u.
  split; [exact Hu|]. apply Z.eqb_eq. exact Hid.
Qed.

(** X4. In every store, with or without the symmetry invariant, [getById]
    fails with NotFound exactly when the target has no user row, or no
    accepted edge (requester, target) is stored, or no accepted edge leaves
    the target. *)
Theorem getById_NOT_FOUND_exactly (db : Database) (s t : Z) :
  getById db s t = NOT_FOUND <->
  hasUser db t = false
  \/ acceptedEdge db s t = false
  \/ length (acceptedFrom db t) = 0%nat.
Proof.
  rewrite getById_NOT_FOUND_query. split.
  - intros Hq.
    destruct (hasUser db t) eqn:Hu; [|tauto].
    destruct (acceptedEdge db s t) eqn:He; [|tauto].
    destruct (acceptedFrom db t) as [|f fs] eqn:Hf; [tauto|].
    exfalso. apply (getById_query_nonempty db s t Hu He); [|exact Hq].
    rewrite Hf. discriminate.
  - intros H.
    destruct (getById_query db s t) as [|q qs] eqn:E; [reflexivity|].
    assert (Hin : In q (getById_query db s t)) by (rewrite E; left; reflexivity).
    pose proof (getById_query_hasUser db s t q Hin) as Hu.
    apply getById_query_row in Hin.
    destruct Hin as (_ & _ & _ & _ & He & Hne).
    destruct H as [H|[H|H]]; try congruence.
    destruct (acceptedFrom db t); [contradiction|discriminate H].
Qed.

(** X5. With the tables' keys (unique user ids, one edge per ordered pair)
    the composed query of [getById] has at most one row, so the row that
    [executeTakeFirstOrThrow] takes does not depend on the order in which
    the store returns rows. *)
Theorem getById_first_row_unambiguous (db : Database) (s t : Z) :
  primaryKeys db = true ->
  (length (getById_query db s t) <= 1)%nat.
Proof. apply getById_query_at_most_one. Qed.

Lemma getById_first_row_unambiguous_witness :
  (length (getById_query db_web 1 2) <= 1)%nat.
Proof.
  apply (getById_first_row_unambiguous db_web 1 2). reflexivity.
Defined.

(** X6. Mutual symmetry at the procedure: in a well-formed store under the
    symmetry invariant, when [getById] answers requester A about B it also
    answers B about A, with the same [mutualFriendCount]. *)
Theorem getById_mutualFriendCount_symmetric (db : Database) (a b : Z)
  (r : FriendRecord) :
  wellFormed db = true ->
  symmetricb db = true ->
  getById db a b = Ok r ->
  exists r', getById db b a = Ok r'
             /\ rec_id r' = a
             /\ mutualFriendCount r' = mutualFriendCount r.
Proof.
  intros Hw Hs Hr. apply getById_Ok_fields in Hr.
  destruct Hr as (_ & _ & Hm & He & _).
  assert (He' : acceptedEdge db b a = true)
    by (apply symmetricb_reverse; assumption).
  destruct (getById_returns db b a Hw He'
              (acceptedEdge_acceptedFrom db a b He))
    as (r' & Hr' & Hid & _ & Hm').
  exists r'. repeat split; try assumption.
  rewrite Hm, Hm'. unfold countAll.
  rewrite (userMutualFriendCount_rows_swap db b a). reflexivity.
Qed.

Lemma getById_mutualFriendCount_symmetric_witness :
  exists r', getById db_web 2 1 = Ok r'
             /\ rec_id r' = 1
             /\ mutualFriendCount r'
                = mutualFriendCount (mkFriendRecord 2 "Bob" "0900000002" 3 2).
Proof.
  apply (getById_mutualFriendCount_symmetric db_web 1 2); reflexivity.
Defined.

(** ** The mutual count as an intersection *)

Lemma length_innerJoin {A B : Type} (l : list A) (r : list B)
  (on : A -> B -> bool) :
  length (innerJoin l r on)
  = list_sum (map (fun a => length (filter (on a) r)) l).
Proof.
  unfold innerJoin. induction l as [|a l IH]; simpl; [reflexivity|].
  rewrite length_app, length_map, IH. reflexivity.
Qed.

Lemma length_filter_sum {A : Type} (q : A -> bool) (l : list A) :
  length (filter q l)
  = list_sum (map (fun a => if q a then 1%nat else 0%nat) l).
Proof.
  induction l as [|a l IH]; simpl; [reflexivity|].
  destruct (q a); simpl; rewrite IH; reflexivity.
Qed.

Lemma filter_filter_andb {A : Type} (p q : A -> bool) (l : list A) :
  filter p (filter q l) = filter (fun x => q x && p x) l.
Proof.
  induction l as [|a l IH]; simpl; [reflexivity|].
  destruct (q a); simpl; [destruct (p a)|]; rewrite IH; reflexivity.
Qed.

(** A key column without duplicates has at most one row for a given key. *)
Lemma filter_key_at_most_one {A K : Type} (key : A -> K) (k : K)
  (q : A -> bool) (l : list A) :
  NoDup (map key l) ->
  (forall b, In b l -> q b = true -> key b = k) ->
  (length (filter q l) <= 1)%nat.
Proof.
  induction l as [|a l IH]; simpl; intros Hnd Hk; [lia|].
  inversion Hnd as [|? ? Hnotin Hnd']; subst.
  destruct (q a) eqn:Ea.
  - rewrite (filter_none q l); [simpl; lia|].
    intros b Hb. destruct (q b) eqn:Eb; [|reflexivity].
    exfalso. apply Hnotin.
    rewrite (Hk a (or_introl eq_refl) Ea), <- (Hk b (or_intror Hb) Eb).
    apply in_map. exact Hb.
  - apply IH; [exact Hnd'|].
    intros b Hb. apply Hk. right. exact Hb.
Qed.

(** With one edge per ordered pair, the rows the single-pair aggregate joins
    are as many as the target's accepted edges whose far end is also reached
    by an accepted edge of the requester. *)
Lemma userMutualFriendCount_rows_intersection (db : Database) (s t : Z) :
  primaryKeys db = true ->
  length (userMutualFriendCount_rows db s t)
  = length (filter (fun f => acceptedEdge db s (friendUserId f))
                   (acceptedFrom db t)).
Proof.
  intros Hk.
  pose proof (primaryKeys_friendships db Hk) as Hnd.
  unfold userMutualFriendCount_rows, acceptedFrom, where_.
  rewrite filter_innerJoin, length_innerJoin.
  rewrite !filter_filter_andb, length_filter_sum.
  f_equal. apply map_ext_in. intros a Ha. simpl.
  destruct (isAccepted a && (userId a =? t)) eqn:Eat.
  - apply andb_true_iff in Eat. destruct Eat as [Eacc Eu].
    rewrite Eacc, Eu. simpl.
    match goal with
    | |- length (filter ?c _) = _ => set (cond := c)
    end.
    assert (Hcond : forall b, cond b = true ->
                              friendUserId a = friendUserId b
                              /\ status b = accepted /\ userId b = s).
    { intros b Hb. unfold cond in Hb.
      apply andb_true_iff in Hb. destruct Hb as [Hw Hb].
      apply andb_true_iff in Hb. destruct Hb as [Hb Hs].
      apply andb_true_iff in Hb. destruct Hb as [Hacc _].
      apply Z.eqb_eq in Hw, Hs. apply isAccepted_spec in Hacc. tauto. }
    destruct (acceptedEdge db s (friendUserId a)) eqn:Ee.
    + assert (Hle : (length (filter cond (friendships db)) <= 1)%nat).
      { apply (filter_key_at_most_one edgeKey (s, friendUserId a));
          [exact Hnd|].
        intros b _ Hb. apply Hcond in Hb. unfold edgeKey.
        destruct Hb as (Hw & _ & Hs). congruence. }
      apply acceptedEdge_true in Ee.
      destruct Ee as (f & Hf & Hfa & Hfu & Hfw).
      assert (Hin : In f (filter cond (friendships db))).
      { apply filter_In. split; [exact Hf|]. unfold cond.
        apply isAccepted_spec in Hfa. rewrite Hfa.
        apply Z.eqb_eq in Hfu. rewrite Hfu.
        assert (E : (friendUserId a =? friendUserId f) = true)
          by (apply Z.eqb_eq; congruence).
        rewrite E. reflexivity. }
      destruct (filter cond (friendships db)) as [|x [|y xs]];
        [destruct Hin|reflexivity|simpl in Hle; lia].
    + rewrite filter_none; [reflexivity|].
      intros b Hb. destruct (cond b) eqn:Eb; [|reflexivity].
      apply Hcond in Eb. destruct Eb as (Hw & Hacc & Hs).
      assert (E : acceptedEdge db s (friendUserId a) = true).
      { apply acceptedEdge_true. exists b. repeat split; congruence. }
      congruence.
  - assert (Hq : isAccepted a
                 && ((userId a =? t) && acceptedEdge db s (friendUserId a))
                 = false).
    { destruct (isAccepted a), (userId a =? t); simpl in *;
        try reflexivity; discriminate. }
    rewrite Hq. rewrite filter_none; [reflexivity|].
    intros b _.
    destruct (isAccepted a), (userId a =? t),
      (friendUserId a =? friendUserId b), (isAccepted b);
      simpl in *; try reflexivity; discriminate.
Qed.

(** X7. With one edge per ordered pair, the [mutualFriendCount] of a record
    that [getById] returns is the size of the intersection of the two
    neighbourhoods: the number of the target's accepted edges whose far end
    is also an accepted neighbour of the requester. It therefore never
    exceeds the record's [totalFriendCount]. *)
Theorem getById_mutualFriendCount_is_intersection (db : Database) (s t : Z)
  (r : FriendRecord) :
  primaryKeys db = true ->
  getById db s t = Ok r ->
  mutualFriendCount r
  = Z.of_nat (length (filter (fun f => acceptedEdge db s (friendUserId f))
                             (acceptedFrom db t)))
  /\ mutualFriendCount r <= totalFriendCount r.
Proof.
  intros Hk Hr. apply getById_Ok_fields in Hr.
  destruct Hr as (_ & Ht & Hm & _).
  rewrite Hm, Ht. unfold countAll.
  rewrite (userMutualFriendCount_rows_intersection db s t Hk).
  split; [reflexivity|].
  pose proof (filter_length_le (fun f => acceptedEdge db s (friendUserId f))
                (acceptedFrom db t)).
  lia.
Qed.

Lemma getById_mutualFriendCount_is_intersection_witness :
  mutualFriendCount (mkFriendRecord 2 "Bob" "0900000002" 3 2)
  = Z.of_nat (length (filter (fun f => acceptedEdge db_web 1 (friendUserId f))
                             (acceptedFrom db_web 2)))
  /\ mutualFriendCount (mkFriendRecord 2 "Bob" "0900000002" 3 2)
     <= totalFriendCount (mkFriendRecord 2 "Bob" "0900000002" 3 2).
Proof.
  apply (getById_mutualFriendCount_is_intersection db_web 1 2); reflexivity.
Defined.

(** ** [getAll] *)

(** X8. In a well-formed store under the symmetry invariant the rows of the
    query of [getAll] are the requester's friends: an id occurs among the
    rows exactly when the accepted edge (requester, id) is stored, and with
    the tables' keys no id occurs twice. *)
Theorem getAll_query_one_row_per_friend (db : Database) (s : Z) :
  wellFormed db = true ->
  symmetricb db = true ->
  (forall v, In v (map q_id (getAll_query db s))
             <-> acceptedEdge db s v = true)
  /\ (primaryKeys db = true -> NoDup (map q_id (getAll_query db s))).
Proof.
  intros Hw Hs. split.
  - intros v. apply getAll_query_ids; assumption.
  - apply getAll_query_ids_NoDup.
Qed.

Lemma getAll_query_one_row_per_friend_witness :
  (forall v, In v (map q_id (getAll_query db_web 2))
             <-> acceptedEdge db_web 2 v = true)
  /\ NoDup (map q_id (getAll_query db_web 2)).
Proof.
  destruct (getAll_query_one_row_per_friend db_web 2) as [H1 H2];
    try reflexivity.
  split; [exact H1|]. apply H2. reflexivity.
Defined.

(** X9. Every row of the query of [getAll], in any store, carries the
    friend's exact total (the number of accepted edges leaving the friend,
    at least 1). For a friend other than the requester its mutual count is
    NULL when the single-pair join of (requester, friend) is empty, and
    otherwise the number of rows of that join; for the requester's own row
    (an accepted self-edge) it is always NULL. *)
Theorem getAll_query_row_content (db : Database) (s : Z) (q : QueryRow) :
  In q (getAll_query db s) ->
  q_totalFriendCount q = Z.of_nat (length (acceptedFrom db (q_id q)))
  /\ 1 <= q_totalFriendCount q
  /\ (q_id q = s -> q_mutualFriendCount q = None)
  /\ (q_id q <> s ->
      q_mutualFriendCount q
      = match userMutualFriendCount_rows db s (q_id q) with
        | [] => None
        | rows => Some (Z.of_nat (length rows))
        end).
Proof.
  intros Hq. apply getAll_query_row in Hq.
  destruct Hq as (_ & _ & Hne & Ht & Hself & Hm).
  repeat split; try assumption.
  rewrite Ht. unfold countAll.
  destruct (acceptedFrom db (q_id q)); [contradiction|simpl; lia].
Qed.

Lemma getAll_query_row_content_witness :
  q_totalFriendCount (mkQueryRow 2 "Bob" "0900000002" 3 (Some 2))
  = Z.of_nat (length (acceptedFrom db_web 2))
  /\ q_mutualFriendCount (mkQueryRow 2 "Bob" "0900000002" 3 (Some 2))
     = match userMutualFriendCount_rows db_web 1 2 with
       | [] => None
       | rows => Some (Z.of_nat (length rows))
       end.
Proof.
  destruct (getAll_query_row_content db_web 1
              (mkQueryRow 2 "Bob" "0900000002" 3 (Some 2)))
    as (H1 & _ & _ & H2).
  - left. reflexivity.
  - split; [exact H1|]. apply H2. discriminate.
Defined.

(** X10. With the tables' keys, every record that [getAll] returns is the
    very record [getById] returns for that friend: same id, name, phone
    number, total and mutual count. *)
Theorem getAll_records_are_getById_records (db : Database) (s : Z)
  (rs : list FriendRecord) (r : FriendRecord) :
  primaryKeys db = true ->
  getAll db s = Ok rs ->
  In r rs ->
  getById db s (rec_id r) = Ok r.
Proof.
  intros Hk Hall Hr. unfold getAll in Hall.
  destruct (parseFriends (getAll_query db s)) as [rs'|] eqn:E;
    [|discriminate].
  inversion Hall; subst rs'.
  destruct (parseFriends_Some _ _ E r Hr) as (q & Hq & Hp).
  pose proof (parseFriend_Some q r Hp) as (Pi & _ & _ & _ & Pm & _).
  apply getAll_query_row in Hq.
  destruct Hq as (He & (u & Hu & Hid & Hn & Hph) & Hne & Ht & Hself & Hm).
  assert (Hns : q_id q <> s).
  { intros Hs. rewrite (Hself Hs) in Pm. discriminate Pm. }
  specialize (Hm Hns). rewrite Pi.
  assert (Hhas : hasUser db (q_id q) = true).
  { unfold hasUser. apply existsb_exists. exists u.
    split; [exact Hu|apply Z.eqb_eq; exact Hid]. }
  pose proof (getById_query_nonempty db s (q_id q) Hhas He Hne) as Hq'.
  unfold getById.
  destruct (getById_query db s (q_id q)) as [|q' qs] eqn:E';
    [contradiction Hq'; reflexivity|].
  assert (Hin : In q' (getById_query db s (q_id q)))
    by (rewrite E'; left; reflexivity).
  apply getById_query_row in Hin.
  destruct Hin as (Hid' & (u' & Hu' & Huid' & Hn' & Hph') & Ht' & Hm' & _).
  assert (u' = u).
  { apply (NoDup_map_eq id (users db));
      [exact (primaryKeys_users db Hk)|assumption..|congruence]. }
  subst u'.
  assert (q' = q).
  { destruct q as [qi qn qp qt qm], q' as [qi' qn' qp' qt' qm'].
    simpl in *. subst.
    destruct (userMutualFriendCount_rows db s (id u)); [discriminate Pm|].
    reflexivity. }
  subst q'. rewrite Hp. reflexivity.
Qed.

Lemma getAll_records_are_getById_records_witness :
  getById db_triangle_tail 1
          (rec_id (mkFriendRecord 3 "Carol" "0900000003" 2 1))
  = Ok (mkFriendRecord 3 "Carol" "0900000003" 2 1).
Proof.
  apply (getAll_records_are_getById_records db_triangle_tail 1
           [mkFriendRecord 2 "Bob" "0900000002" 3 1;
            mkFriendRecord 3 "Carol" "0900000003" 2 1]).
  - reflexivity.
  - reflexivity.
  - right. left. reflexivity.
Defined.

(** ** Filters and joins *)

Lemma filter_map_swap {A B : Type} (f : A -> B) (p : B -> bool) (l : list A) :
  filter p (map f l) = map f (filter (fun x => p (f x)) l).
Proof.
  induction l as [|a l IH]; simpl; [reflexivity|].
  destruct (p (f a)); simpl; rewrite IH; reflexivity.
Qed.

Lemma filter_idem {A : Type} (p : A -> bool) (l : list A) :
  filter p (filter p l) = filter p l.
Proof.
  apply filter_all. intros x Hx. apply filter_In in Hx. tauto.
Qed.

(** A filter on the left operand of a join is a filter on the left column of
    its result; likewise on the right. *)
Lemma innerJoin_filter_l {A B : Type} (p : A -> bool) (l : list A)
  (r : list B) (on : A -> B -> bool) :
  innerJoin (filter p l) r on
  = filter (fun x => p (fst x)) (innerJoin l r on).
Proof.
  unfold innerJoin. induction l as [|a l IH]; [reflexivity|].
  cbn [filter flat_map]. rewrite filter_app.
  destruct (p a) eqn:E; cbn [flat_map]; rewrite IH.
  - f_equal. symmetry. apply filter_all.
    intros x Hx. apply in_map_iff in Hx. destruct Hx as (b & <- & _).
    exact E.
  - rewrite (filter_none _ (map (pair a) (filter (on a) r)));
      [reflexivity|].
    intros x Hx. apply in_map_iff in Hx. destruct Hx as (b & <- & _).
    exact E.
Qed.

Lemma innerJoin_filter_r {A B : Type} (q : B -> bool) (l : list A)
  (r : list B) (on : A -> B -> bool) :
  innerJoin l (filter q r) on
  = filter (fun x => q (snd x)) (innerJoin l r on).
Proof.
  rewrite filter_innerJoin. unfold innerJoin.
  rewrite !flat_map_concat_map. f_equal. apply map_ext. intros a. f_equal.
  rewrite filter_filter_andb. apply filter_ext. intros b. simpl.
  apply andb_comm.
Qed.

Lemma leftJoin_filter_l {A B : Type} (p : A -> bool) (l : list A)
  (r : list B) (on : A -> B -> bool) :
  leftJoin (filter p l) r on
  = filter (fun x => p (fst x)) (leftJoin l r on).
Proof.
  unfold leftJoin. induction l as [|a l IH]; [reflexivity|].
  cbn [filter flat_map]. rewrite filter_app.
  assert (Hfst : forall x,
             In x (match filter (on a) r with
                   | [] => [(a, None)]
                   | b :: ms => map (fun b0 => (a, Some b0)) (b :: ms)
                   end) -> fst x = a).
  { intros x Hx. destruct (filter (on a) r) as [|b ms].
    - destruct Hx as [<-|[]]. reflexivity.
    - apply in_map_iff in Hx. destruct Hx as (b' & <- & _). reflexivity. }
  destruct (p a) eqn:E; cbn [flat_map]; rewrite IH.
  - f_equal. symmetry. apply filter_all.
    intros x Hx. rewrite (Hfst x Hx). exact E.
  - match goal with
    | |- _ = filter ?q ?m ++ _ =>
        rewrite (filter_none q m); [reflexivity|]
    end.
    intros x Hx. rewrite (Hfst x Hx). exact E.
Qed.

(** A left join whose right side matches a left row at most once has as many
    rows as its left operand. *)
Lemma length_leftJoin_at_most_one {A B : Type} (l : list A) (r : list B)
  (on : A -> B -> bool) :
  (forall a, In a l -> (length (filter (on a) r) <= 1)%nat) ->
  length (leftJoin l r on) = length l.
Proof.
  unfold leftJoin. induction l as [|a l IH]; intros H; cbn [flat_map];
    [reflexivity|].
  rewrite length_app, IH by (intros x Hx; apply H; right; exact Hx).
  pose proof (H a (or_introl eq_refl)) as Ha.
  destruct (filter (on a) r) as [|b [|b' ms]]; simpl in *; try lia.
Qed.

(** ** Requested and declined edges *)

Lemma acceptedOnly_where (db : Database) :
  where_ isAccepted (friendships (acceptedOnly db))
  = where_ isAccepted (friendships db).
Proof. unfold where_, acceptedOnly. simpl. apply filter_idem. Qed.

Lemma acceptedOnly_userTotalFriendCount (db : Database) :
  userTotalFriendCount (acceptedOnly db) = userTotalFriendCount db.
Proof.
  unfold userTotalFriendCount. rewrite acceptedOnly_where. reflexivity.
Qed.

Lemma acceptedOnly_self_join (db : Database)
  (on : Friendship -> Friendship -> bool)
  (p : Friendship * Friendship -> bool) :
  (forall x, p x = true -> isAccepted (fst x) && isAccepted (snd x) = true) ->
  where_ p (innerJoin (friendships (acceptedOnly db))
                      (friendships (acceptedOnly db)) on)
  = where_ p (innerJoin (friendships db) (friendships db) on).
Proof.
  intros Hp. unfold where_, acceptedOnly. simpl.
  rewrite innerJoin_filter_l, innerJoin_filter_r, !filter_filter_andb.
  apply filter_ext_in. intros x _.
  destruct (p x) eqn:E;
    [|destruct (isAccepted (fst x)), (isAccepted (snd x)); reflexivity].
  specialize (Hp x E). apply andb_true_iff in Hp. destruct Hp as [H1 H2].
  rewrite H1, H2. reflexivity.
Qed.

Lemma acceptedOnly_userMutualFriendCount (db : Database) (u v : Z) :
  userMutualFriendCount (acceptedOnly db) u v = userMutualFriendCount db u v.
Proof.
  unfold userMutualFriendCount, userMutualFriendCount_groups,
    userMutualFriendCount_rows.
  rewrite acceptedOnly_self_join; [reflexivity|].
  intros x Hx. apply andb_true_iff in Hx. destruct Hx as [Hx _].
  apply andb_true_iff in Hx. destruct Hx as [Hx _]. exact Hx.
Qed.

Lemma acceptedOnly_mutualFriendsCountAll (db : Database) (u : Z) :
  mutualFriendsCountAll (acceptedOnly db) u = mutualFriendsCountAll db u.
Proof.
  unfold mutualFriendsCountAll, mutualFriendsCountAll_groups,
    mutualFriendsCountAll_rows.
  rewrite acceptedOnly_self_join; [reflexivity|].
  intros x Hx. exact Hx.
Qed.

(** The chain of joins shared by [getById] and [getAll], over the accepted
    edges only, is the chain over all edges with the other rows dropped. *)
Lemma acceptedOnly_joined (db : Database) (M : list MutualRow) :
  leftJoin
    (innerJoin
       (innerJoin (users (acceptedOnly db)) (friendships (acceptedOnly db))
                  (fun friends f => friendUserId f =? id friends))
       (userTotalFriendCount (acceptedOnly db))
       (fun l t => tfc_userId t =? id (fst l)))
    M
    (fun l m => mfc_user m =? id (fst (fst l)))
  = filter (fun r => isAccepted (snd (fst (fst r))))
      (leftJoin
         (innerJoin
            (innerJoin (users db) (friendships db)
                       (fun friends f => friendUserId f =? id friends))
            (userTotalFriendCount db)
            (fun l t => tfc_userId t =? id (fst l)))
         M
         (fun l m => mfc_user m =? id (fst (fst l)))).
Proof.
  rewrite acceptedOnly_userTotalFriendCount.
  unfold acceptedOnly. simpl.
  rewrite innerJoin_filter_r.
  rewrite (innerJoin_filter_l (fun x => isAccepted (snd x))).
  rewrite (leftJoin_filter_l (fun x => isAccepted (snd (fst x)))).
  reflexivity.
Qed.

(** X11. Requested and declined edges never influence a lookup: on the
    store with only its accepted edges kept, [getById], [getAll] and
    [getAll1] give the results they give on the full store. *)
Theorem lookups_ignore_non_accepted_edges (db : Database) (s t : Z) :
  getById (acceptedOnly db) s t = getById db s t
  /\ getAll (acceptedOnly db) s = getAll db s
  /\ getAll1 (acceptedOnly db) s = getAll1 db s.
Proof.
  split; [|split].
  - unfold getById, getById_query, getById_joined, where_.
    rewrite acceptedOnly_userMutualFriendCount, acceptedOnly_joined.
    rewrite filter_filter_andb.
    rewrite (filter_ext _ (getById_where s t)); [reflexivity|].
    intros r. unfold getById_where.
    destruct (isAccepted (snd (fst (fst r)))); simpl;
      rewrite ?andb_false_r; reflexivity.
  - unfold getAll, getAll_query, getAll_joined, where_.
    rewrite acceptedOnly_mutualFriendsCountAll, acceptedOnly_joined.
    rewrite filter_filter_andb.
    rewrite (filter_ext _ (getAll_where s)); [reflexivity|].
    intros r. unfold getAll_where.
    destruct (isAccepted (snd (fst (fst r)))); simpl;
      rewrite ?andb_false_r; reflexivity.
  - unfold getAll1, getAll1_query, getAll1_joined, getAll1_mutualFriendCount,
      userFriendships, friendsFriendships.
    rewrite acceptedOnly_where. reflexivity.
Qed.

(** ** [getAll1] *)

Lemma innerJoin_map {A B A' B' : Type} (f : A -> A') (g : B -> B')
  (l : list A) (r : list B) (on : A' -> B' -> bool) :
  innerJoin (map f l) (map g r) on
  = map (fun p => (f (fst p), g (snd p)))
        (innerJoin l r (fun a b => on (f a) (g b))).
Proof.
  unfold innerJoin. induction l as [|a l IH]; simpl; [reflexivity|].
  rewrite map_app, IH. f_equal.
  rewrite filter_map_swap, !map_map. reflexivity.
Qed.

Lemma in_userFriendships (db : Database) (s : Z) (e : EdgeRow) :
  In e (userFriendships db s) -> e_userId e = s.
Proof.
  unfold userFriendships, where_. rewrite in_map_iff.
  intros (f & <- & Hf). apply filter_In in Hf. destruct Hf as [_ Hs].
  apply Z.eqb_eq in Hs. exact Hs.
Qed.

(** The rows that the CTE of [getAll1] groups for a user b other than the
    requester are as many as the rows the single-pair aggregate joins. *)
Lemma getAll1_cte_rows_length (db : Database) (s b : Z) :
  b <> s ->
  length (filter (fun p => pair_eqb (cteKey p) (s, b))
                 (innerJoin (userFriendships db s) (friendsFriendships db s)
                            (fun f1 f2 => e_friendUserId f1 =? e_friendUserId f2)))
  = length (userMutualFriendCount_rows db s b).
Proof.
  intros Hbs. rewrite (userMutualFriendCount_rows_swap db s b).
  unfold userFriendships, friendsFriendships, userMutualFriendCount_rows,
    where_.
  rewrite innerJoin_map, filter_map_swap, length_map.
  rewrite !filter_filter_andb, innerJoin_filter_l, innerJoin_filter_r,
    !filter_filter_andb.
  f_equal. apply filter_ext. intros [f1 f2].
  unfold pair_eqb, cteKey. simpl.
  destruct (Z.eqb_spec (userId f2) b) as [E2|E2],
           (Z.eqb_spec (userId f2) s) as [E3|E3],
           (Z.eqb_spec (userId f1) s) as [E1|E1],
           (isAccepted f1), (isAccepted f2);
    simpl; try reflexivity; congruence.
Qed.

Lemma in_getAll1_mutualFriendCount (db : Database) (s : Z) (m : MutualRow) :
  In m (getAll1_mutualFriendCount db s) <->
  mfc_user m = s /\ mfc_friend m <> s
  /\ userMutualFriendCount_rows db s (mfc_friend m) <> []
  /\ mfc_mutualFriendCount m
     = countAll (userMutualFriendCount_rows db s (mfc_friend m)).
Proof.
  unfold getAll1_mutualFriendCount. rewrite in_map_iff. split.
  - intros ([[a b] g] & Hm & Hg). subst m. simpl.
    apply (in_groupBy pair_eqb pair_eqb_eq) in Hg.
    destruct Hg as (([e1 e2] & Hr & Hk) & Hg).
    pose proof Hr as Hr'. apply in_innerJoin in Hr'.
    destruct Hr' as (H1 & H2 & _).
    apply in_userFriendships in H1. apply in_friendsFriendships in H2.
    destruct H2 as (f & _ & _ & Hfs & He2).
    unfold cteKey in Hk. simpl in Hk.
    assert (Ha : a = s) by congruence.
    assert (Hb : b <> s) by (subst e2; simpl in Hk; congruence).
    subst a.
    assert (Hlen : length g = length (userMutualFriendCount_rows db s b)).
    { rewrite Hg. apply getAll1_cte_rows_length. exact Hb. }
    repeat split; try assumption.
    + intros Hnil. rewrite Hnil in Hlen.
      assert (Hin : In (e1, e2) g).
      { rewrite Hg. apply filter_In. split; [exact Hr|].
        apply pair_eqb_eq. exact Hk. }
      destruct g; [destruct Hin|discriminate Hlen].
    + unfold countAll. rewrite Hlen. reflexivity.
  - intros (Hu & Hf & Hne & Hc). destruct m as [a b c]. simpl in *. subst a.
    set (R := innerJoin (userFriendships db s) (friendsFriendships db s)
                        (fun f1 f2 => e_friendUserId f1 =? e_friendUserId f2)).
    set (g := filter (fun p => pair_eqb (cteKey p) (s, b)) R).
    assert (Hlen : length g = length (userMutualFriendCount_rows db s b))
      by (apply getAll1_cte_rows_length; exact Hf).
    exists ((s, b), g). simpl. split.
    + rewrite Hc. unfold countAll. rewrite Hlen. reflexivity.
    + apply (in_groupBy pair_eqb pair_eqb_eq). split; [|reflexivity].
      destruct g as [|p ps] eqn:Eg.
      * destruct (userMutualFriendCount_rows db s b);
          [contradiction|discriminate Hlen].
      * assert (Hp : In p g) by (rewrite Eg; left; reflexivity).
        unfold g in Hp. apply filter_In in Hp. destruct Hp as [Hp Hk].
        apply pair_eqb_eq in Hk. exists p. tauto.
Qed.

Lemma NoDup_getAll1_mutualFriendCount_keys (db : Database) (s : Z) :
  NoDup (map (fun m => (mfc_user m, mfc_friend m))
             (getAll1_mutualFriendCount db s)).
Proof.
  unfold getAll1_mutualFriendCount. rewrite map_map. simpl.
  rewrite (map_ext _ fst) by (intros [[? ?] ?]; reflexivity).
  apply (NoDup_groupBy_keys pair_eqb pair_eqb_eq).
Qed.

Lemma filter_unique_key {A : Type} (key : A -> Z) (l : list A) (u : A) :
  NoDup (map key l) -> In u l ->
  filter (fun x => key x =? key u) l = [u].
Proof.
  induction l as [|a l IH]; simpl; intros Hnd Hu; [destruct Hu|].
  inversion Hnd as [|? ? Hnotin Hnd']; subst.
  destruct Hu as [Hu|Hu].
  - subst a. rewrite Z.eqb_refl. f_equal. apply filter_none.
    intros x Hx. apply Z.eqb_neq. intros E. apply Hnotin.
    rewrite <- E. apply in_map. exact Hx.
  - assert (E : (key a =? key u) = false).
    { apply Z.eqb_neq. intros E. apply Hnotin. rewrite E.
      apply in_map. exact Hu. }
    rewrite E. apply IH; assumption.
Qed.

(** With unique user ids, the group of a user other than the requester in
    the main query of [getAll1] has one row per accepted edge of the user:
    the left join onto the CTE does not multiply rows. *)
Lemma getAll1_group_length (db : Database) (s : Z) (u : User) :
  primaryKeys db = true ->
  In u (users db) -> id u <> s ->
  length (filter (fun r => id (fst (fst r)) =? id u) (getAll1_joined db s))
  = length (acceptedFrom db (id u)).
Proof.
  intros Hk Hu Hus. unfold getAll1_joined.
  rewrite <- (leftJoin_filter_l (fun x : User * EdgeRow => id (fst x) =? id u)).
  rewrite length_leftJoin_at_most_one.
  - rewrite <- (innerJoin_filter_l (fun x : User => id x =? id u)).
    rewrite (filter_unique_key id (users db) u (primaryKeys_users db Hk) Hu).
    rewrite length_innerJoin. simpl. rewrite Nat.add_0_r.
    unfold friendsFriendships, acceptedFrom, where_.
    rewrite filter_map_swap, length_map, !filter_filter_andb.
    f_equal. apply filter_ext. intros f. simpl.
    destruct (Z.eqb_spec (userId f) (id u)) as [E|E],
             (Z.eqb_spec (userId f) s) as [E'|E'], (isAccepted f);
      simpl; try reflexivity; congruence.
  - intros [u' e] _. simpl.
    apply (filter_key_at_most_one (fun m => (mfc_user m, mfc_friend m))
                                  (s, id u')).
    + apply NoDup_getAll1_mutualFriendCount_keys.
    + intros m Hm Hf. apply in_getAll1_mutualFriendCount in Hm.
      apply Z.eqb_eq in Hf. destruct Hm as [Hmu _]. congruence.
Qed.

(** What a row of the main query of [getAll1] holds. *)
Lemma getAll1_query_row (db : Database) (s : Z) (q : QueryRow) :
  primaryKeys db = true ->
  In q (getAll1_query db s) ->
  q_id q <> s
  /\ (exists u, In u (users db) /\ id u = q_id q
                /\ q_fullName q = fullName u
                /\ q_phoneNumber q = phoneNumber u)
  /\ q_totalFriendCount q = countAll (acceptedFrom db (q_id q))
  /\ q_mutualFriendCount q
     = match userMutualFriendCount_rows db s (q_id q) with
       | [] => None
       | rows => Some (countAll rows)
       end.
Proof.
  intros Hk Hq. unfold getAll1_query in Hq. apply in_flat_map in Hq.
  destruct Hq as ([k g] & Hg & Hq).
  apply (in_groupBy Z.eqb Z.eqb_eq) in Hg. destruct Hg as [_ Hg].
  unfold getAll1_select in Hq. simpl in Hq, Hg.
  destruct g as [|[[u e] om] g'] eqn:Eg; [destruct Hq|].
  destruct Hq as [Hq|[]]. subst q. simpl.
  assert (Hin : In (u, e, om) g) by (rewrite Eg; left; reflexivity).
  rewrite <- Eg in *. clear Eg g'.
  rewrite Hg in Hin. apply filter_In in Hin. destruct Hin as [Hin Hkey].
  simpl in Hkey. apply Z.eqb_eq in Hkey. subst k.
  unfold getAll1_joined in Hin. apply in_leftJoin in Hin.
  destruct Hin as [Hin Hom]. apply in_innerJoin in Hin.
  destruct Hin as (Hu & He & Hon). apply Z.eqb_eq in Hon.
  apply in_friendsFriendships in He.
  destruct He as (f & _ & _ & Hfs & He). subst e. simpl in Hon, Hom.
  assert (Hus : id u <> s) by congruence.
  repeat split.
  - exact Hus.
  - exists u. repeat split; assumption.
  - unfold countAll. rewrite Hg.
    rewrite (getAll1_group_length db s u Hk Hu Hus). reflexivity.
  - destruct om as [m|]; simpl.
    + destruct Hom as [Hm Hf]. apply Z.eqb_eq in Hf.
      apply in_getAll1_mutualFriendCount in Hm. rewrite Hf in Hm.
      destruct Hm as (_ & _ & Hne & Hc). rewrite Hc.
      destruct (userMutualFriendCount_rows db s (id u)); [contradiction|].
      reflexivity.
    + destruct (userMutualFriendCount_rows db s (id u)) as [|p ps] eqn:E;
        [reflexivity|].
      assert (Hm : In (mkMutualRow s (id u)
                         (countAll (userMutualFriendCount_rows db s (id u))))
                      (filter (fun m => mfc_friend m =? id u)
                              (getAll1_mutualFriendCount db s))).
      { apply filter_In. split; [|simpl; apply Z.eqb_refl].
        apply in_getAll1_mutualFriendCount. simpl. rewrite E.
        repeat split; try assumption. discriminate. }
      rewrite Hom in Hm. destruct Hm.
Qed.

(** X12. The main query of [getAll1] is driven by the accepted edges of
    everybody but the requester: in every store, an id occurs among its rows
    exactly when it is not the requester's, has a user row and has an
    accepted edge leaving it, whether or not it is a friend of the
    requester. *)
Theorem getAll1_rows_for_every_other_user (db : Database) (s v : Z) :
  In v (map q_id (getAll1_query db s)) <->
  v <> s /\ hasUser db v = true /\ (0 < length (acceptedFrom db v))%nat.
Proof.
  rewrite getAll1_query_ids. split.
  - intros (H1 & H2 & H3). repeat split; try assumption.
    destruct (acceptedFrom db v); [contradiction|simpl; lia].
  - intros (H1 & H2 & H3). repeat split; try assumption.
    intros E. rewrite E in H3. simpl in H3. lia.
Qed.

(** X13. With the tables' keys, a row of the main query of [getAll1]
    carries the user's exact total (the left join onto the CTE does not
    multiply the rows that are counted) and, as mutual count, NULL when the
    single-pair join of (requester, user) is empty and the number of rows of
    that join otherwise. *)
Theorem getAll1_query_row_content (db : Database) (s : Z) (q : QueryRow) :
  primaryKeys db = true ->
  In q (getAll1_query db s) ->
  q_id q <> s
  /\ q_totalFriendCount q = Z.of_nat (length (acceptedFrom db (q_id q)))
  /\ q_mutualFriendCount q
     = match userMutualFriendCount_rows db s (q_id q) with
       | [] => None
       | rows => Some (Z.of_nat (length rows))
       end.
Proof.
  intros Hk Hq. apply getAll1_query_row in Hq; [|exact Hk].
  destruct Hq as (H1 & _ & H2 & H3). repeat split; assumption.
Qed.

Lemma getAll1_query_row_content_witness :
  q_id (mkQueryRow 4 "Dave" "0900000004" 1 (Some 1)) <> 1
  /\ q_totalFriendCount (mkQueryRow 4 "Dave" "0900000004" 1 (Some 1))
     = Z.of_nat (length (acceptedFrom db_triangle_tail 4))
  /\ q_mutualFriendCount (mkQueryRow 4 "Dave" "0900000004" 1 (Some 1))
     = match userMutualFriendCount_rows db_triangle_tail 1 4 with
       | [] => None
       | rows => Some (Z.of_nat (length rows))
       end.
Proof.
  apply (getAll1_query_row_content db_triangle_tail 1).
  - reflexivity.
  - right. right. left. reflexivity.
Defined.

Lemma queryRow_eq (db : Database) (q q' : QueryRow) :
  primaryKeys db = true ->
  q_id q = q_id q' ->
  (exists u, In u (users db) /\ id u = q_id q
             /\ q_fullName q = fullName u /\ q_phoneNumber q = phoneNumber u) ->
  (exists u, In u (users db) /\ id u = q_id q'
             /\ q_fullName q' = fullName u
             /\ q_phoneNumber q' = phoneNumber u) ->
  q_totalFriendCount q = q_totalFriendCount q' ->
  q_mutualFriendCount q = q_mutualFriendCount q' ->
  q = q'.
Proof.
  intros Hk Hid (u & Hu & Hi & Hn & Hp) (u' & Hu' & Hi' & Hn' & Hp') Ht Hm.
  assert (u = u').
  { apply (NoDup_map_eq id (users db));
      [exact (primaryKeys_users db Hk)|assumption..|congruence]. }
  subst u'. destruct q, q'. simpl in *. congruence.
Qed.

(** X14. With the tables' keys, on the friends of the requester the two
    batch queries agree row by row: a row for a user other than the
    requester is in the query of [getAll] exactly when it is in the main
    query of [getAll1] and the accepted edge (requester, user) is stored. *)
Theorem getAll_rows_are_getAll1_rows_of_friends (db : Database) (s : Z)
  (q : QueryRow) :
  primaryKeys db = true ->
  q_id q <> s ->
  (In q (getAll_query db s)
   <-> In q (getAll1_query db s) /\ acceptedEdge db s (q_id q) = true).
Proof.
  intros Hk Hqs. split.
  - intros Hq. apply getAll_query_row in Hq.
    destruct Hq as (He & Hu & Hne & Ht & _ & Hm).
    split; [|exact He].
    assert (Hin : In (q_id q) (map q_id (getAll1_query db s))).
    { apply getAll1_query_ids. repeat split; try assumption.
      destruct Hu as (u & Hu & Hid & _). unfold hasUser.
      apply existsb_exists. exists u. split; [exact Hu|].
      apply Z.eqb_eq. exact Hid. }
    apply in_map_iff in Hin. destruct Hin as (q1 & Hid1 & Hq1).
    pose proof (getAll1_query_row db s q1 Hk Hq1) as (_ & Hu1 & Ht1 & Hm1).
    assert (q1 = q).
    { apply (queryRow_eq db); try assumption.
      - rewrite Ht1, Ht, Hid1. reflexivity.
      - rewrite Hm1, (Hm Hqs), Hid1. reflexivity. }
    subst q1. exact Hq1.
  - intros [Hq He].
    pose proof (getAll1_query_row db s q Hk Hq) as (_ & Hu & Ht & Hm).
    assert (Hids : In (q_id q) (map q_id (getAll1_query db s)))
      by (apply in_map; exact Hq).
    apply getAll1_query_ids in Hids. destruct Hids as (_ & Hhas & Hne).
    destruct (getAll_query_complete db s (q_id q) Hhas He Hne)
      as (q' & Hq' & Hid').
    pose proof (getAll_query_row db s q' Hq') as (_ & Hu' & _ & Ht' & _ & Hm').
    assert (q' = q).
    { apply (queryRow_eq db); try assumption.
      - rewrite Ht', Ht, Hid'. reflexivity.
      - rewrite Hm' by congruence. rewrite Hm, Hid'. reflexivity. }
    subst q'. exact Hq'.
Qed.

Lemma getAll_rows_are_getAll1_rows_of_friends_witness :
  (In (mkQueryRow 2 "Bob" "0900000002" 3 (Some 1))
      (getAll_query db_triangle_tail 1)
   <-> In (mkQueryRow 2 "Bob" "0900000002" 3 (Some 1))
          (getAll1_query db_triangle_tail 1)
       /\ acceptedEdge db_triangle_tail 1
            (q_id (mkQueryRow 2 "Bob" "0900000002" 3 (Some 1))) = true).
Proof.
  apply (getAll_rows_are_getAll1_rows_of_friends db_triangle_tail 1).
  - reflexivity.
  - discriminate.
Defined.

(** ** Mutual count below the total *)

Lemma filter_length_lt {A : Type} (p : A -> bool) (l : list A) (x : A) :
  In x l -> p x = false -> (length (filter p l) < length l)%nat.
Proof.
  induction l as [|a l IH]; simpl; intros Hx Hp; [destruct Hx|].
  destruct Hx as [Hx|Hx].
  - subst a. rewrite Hp. pose proof (filter_length_le p l). lia.
  - specialize (IH Hx Hp). destruct (p a); simpl; lia.
Qed.

(** X15. With one edge per ordered pair, under the symmetry invariant and
    without an accepted self-edge on the requester, a record that [getById]
    returns has [mutualFriendCount < totalFriendCount]: the target's edge
    back to the requester counts for the total and never for the mutual
    count. *)
Theorem getById_mutual_below_total (db : Database) (s t : Z)
  (r : FriendRecord) :
  primaryKeys db = true ->
  symmetricb db = true ->
  acceptedEdge db s s = false ->
  getById db s t = Ok r ->
  mutualFriendCount r < totalFriendCount r.
Proof.
  intros Hk Hs Hself Hr. apply getById_Ok_fields in Hr.
  destruct Hr as (_ & Ht & Hm & He & _).
  rewrite Hm, Ht. unfold countAll.
  rewrite (userMutualFriendCount_rows_intersection db s t Hk).
  apply (symmetricb_reverse db s t Hs) in He.
  apply acceptedEdge_true in He. destruct He as (f & Hf & Ha & Hu & Hv).
  assert (Hlt : (length (filter (fun f => acceptedEdge db s (friendUserId f))
                                (acceptedFrom db t))
                 < length (acceptedFrom db t))%nat).
  { apply (filter_length_lt _ _ f).
    - apply acceptedFrom_In. tauto.
    - rewrite Hv. exact Hself. }
  lia.
Qed.

Lemma getById_mutual_below_total_witness :
  mutualFriendCount (mkFriendRecord 2 "Bob" "0900000002" 3 2)
  < totalFriendCount (mkFriendRecord 2 "Bob" "0900000002" 3 2).
Proof.
  apply (getById_mutual_below_total db_web 1 2); reflexivity.
Defined.
